(** * Script registry, argument-slot layout and dispatch of modules/scripts.py

    A shallow embedding of [load_scripts], [wrap_call],
    [ScriptRunner.setup_ui], its inner [select_script] and
    [ScriptRunner.run], with the properties of the plugin host stated
    over it.

    Python exceptions are modelled by the type [exn].  [SystemExit] and
    [KeyboardInterrupt] are not instances of [Exception]; the other
    constructors are.  The two [except Exception] clauses of the module
    catch the instances of [Exception] only, which [is_exception]
    tells. *)

From Stdlib Require Import String Ascii ZArith Lia Bool Arith List.
Import ListNotations.
Open Scope string_scope.
Open Scope list_scope.
Set Warnings "-register-all".

(** ** Python values and outcomes *)

Inductive exn : Type :=
| IndexError
| TypeError
| NotImplementedError
| OSError (msg : string)
| SyntaxError (msg : string)
| RuntimeError (msg : string)
| SystemExit
| KeyboardInterrupt.

(** [isinstance(e, Exception)] *)
Definition is_exception (e : exn) : bool :=
  match e with
  | SystemExit | KeyboardInterrupt => false
  | _ => true
  end.

(** The result of evaluating a Python call: a value or a raised exception. *)
Inductive outcome (A : Type) : Type :=
| Ret (a : A)
| Raise (e : exn).
Arguments Ret {A} a.
Arguments Raise {A} e.

(** The values a control of the page can deliver to [run]. *)
Inductive pyval : Type :=
| PyNone
| PyBool (b : bool)
| PyInt (z : Z)
| PyStr (s : string).

(** Modelled from the spec: modules/processing.py is not among the
    sources; the processing context is an opaque object handed to [run]
    unmodified, and [Processed] is what a script's [run] gives back. *)
Inductive StableDiffusionProcessing : Type := Processing (id : nat).
Inductive Processed : Type := ProcessedImages (id : nat).

(** gradio components, as far as this module touches them: what the
    component is, and the two attributes [setup_ui] assigns. *)
Inductive widget : Type :=
| Dropdown (label : string) (choices : list string) (value : string)
           (type_ : string) (elem_id : string)
| Textbox (value : string) (elem_id : string) (show_label : bool)
| Widget (descr : string).

Record component : Type := mkComponent {
  widget_of : widget;
  custom_script_source : option string;
  visible : bool
}.

(** What [ui_restraints] returns: a dict from names to lists of names. *)
Definition restraints : Type := list (string * list string).

(** The updates [select_script] hands to gradio. *)
Inductive update : Type :=
| GrShow (vis : bool)
| TextboxUpdate (value : string) (vis : bool).

(** Modelled from the spec: modules/ui.py is not among the sources;
    [ui.gr_show] builds the update that carries the visibility flag of
    one control. *)
Definition gr_show (vis : bool) : update := GrShow vis.

(** ** Classes *)

(** The methods of a script class, resolved through its bases.  A method
    either returns or raises.  [ui] is taken at the type lines 21-26
    give it: it returns [None] or a list of components. *)
Record methods : Type := mkMethods {
  m_init : outcome unit;
  m_title : outcome (option string);
  m_ui : bool -> outcome (option (list component));
  m_ui_restraints : outcome restraints;
  m_show : bool -> outcome bool;
  m_run : StableDiffusionProcessing -> list pyval -> outcome (option Processed);
  m_describe : outcome string
}.

(** A class object: [cid] is its identity, [metaclass_is_type] tells
    whether [type(cls)] is [type] itself. *)
Inductive pyclass : Type :=
| Class (cid : nat) (name : string) (metaclass_is_type : bool)
        (bases : list pyclass) (meths : methods).

Definition cid_of (c : pyclass) : nat :=
  match c with Class i _ _ _ _ => i end.
Definition name_of (c : pyclass) : string :=
  match c with Class _ n _ _ _ => n end.
Definition meta_is_type (c : pyclass) : bool :=
  match c with Class _ _ m _ _ => m end.
Definition bases_of (c : pyclass) : list pyclass :=
  match c with Class _ _ _ bs _ => bs end.
Definition meths_of (c : pyclass) : methods :=
  match c with Class _ _ _ _ ms => ms end.

(** [issubclass(c, target)]: [c] is [target] or one of its bases is a
    subclass of it. *)
Fixpoint issubclass (c : pyclass) (target : nat) : bool :=
  match c with
  | Class i _ _ bs _ => Nat.eqb i target || existsb (fun b => issubclass b target) bs
  end.

(** [class Script]: the defaults of lines 12-57. *)
Definition Script_methods : methods := {|
  m_init := Ret tt;
  m_title := Raise NotImplementedError;
  m_ui := fun _ => Ret None;
  m_ui_restraints := Ret [];
  m_show := fun _ => Ret true;
  m_run := fun _ _ => Raise NotImplementedError;
  m_describe := Ret EmptyString
|}.

Definition Script : pyclass := Class 0 "Script" true [] Script_methods.

(** A value bound at the top level of a module. *)
Inductive pyobj : Type :=
| ObjClass (c : pyclass)
| ObjValue (v : pyval).

(** [type(obj) == type] *)
Definition type_is_type (o : pyobj) : bool :=
  match o with
  | ObjClass c => meta_is_type c
  | ObjValue _ => false
  end.

(** ** Instances and the world *)

(** An instance of a script class with the three attributes the module
    assigns; [args_from] and [args_to] are [None] until [setup_ui] sets
    them. *)
Record script : Type := mkScript {
  cls : pyclass;
  filename : string;
  args_from : option nat;
  args_to : option nat
}.

Inductive event : Type :=
| RunCalled (s : script) (p : StableDiffusionProcessing) (args : list pyval)
| TqdmClear.

(** The mutable state the module reads and writes: the global
    [scripts_data], [self.scripts] of the runner at hand, what was
    printed to [sys.stderr], and the calls made into scripts and into
    [shared.total_tqdm]. *)
Record world : Type := mkWorld {
  scripts_data : list (pyclass * string);
  self_scripts : list script;
  stderr : list string;
  events : list event
}.

Definition set_scripts_data (f : list (pyclass * string) -> list (pyclass * string))
    (w : world) : world :=
  mkWorld (f (scripts_data w)) (self_scripts w) (stderr w) (events w).
Definition set_self_scripts (f : list script -> list script) (w : world) : world :=
  mkWorld (scripts_data w) (f (self_scripts w)) (stderr w) (events w).
Definition set_stderr (f : list string -> list string) (w : world) : world :=
  mkWorld (scripts_data w) (self_scripts w) (f (stderr w)) (events w).
Definition set_events (f : list event -> list event) (w : world) : world :=
  mkWorld (scripts_data w) (self_scripts w) (stderr w) (f (events w)).

(** ** The monad of statements

    A statement runs in a world, and returns or raises; what it wrote
    before raising stays written. *)
Definition M (A : Type) : Type := world -> outcome A * world.

Definition ret {A} (a : A) : M A := fun w => (Ret a, w).
Definition raise {A} (e : exn) : M A := fun w => (Raise e, w).
Definition bind {A B} (m : M A) (k : A -> M B) : M B :=
  fun w => match m w with
           | (Ret a, w') => k a w'
           | (Raise e, w') => (Raise e, w')
           end.
Definition lift {A} (o : outcome A) : M A := fun w => (o, w).

Declare Scope py_scope.
Delimit Scope py_scope with py.
Notation "x <- c ;; k" := (bind c (fun x => k))
  (at level 100, c at next level, right associativity) : py_scope.
Notation "c ;;; k" := (bind c (fun _ => k))
  (at level 100, right associativity) : py_scope.
Open Scope py_scope.

(** [try: body except Exception: handler]: an exception that is not an
    instance of [Exception] passes through. *)
Definition try_except {A} (body : M A) (handler : exn -> M A) : M A :=
  fun w => match body w with
           | (Ret a, w') => (Ret a, w')
           | (Raise e, w') =>
               if is_exception e then handler e w' else (Raise e, w')
           end.

(** [for x in l: body x] *)
Fixpoint for_each {A} (l : list A) (body : A -> M unit) : M unit :=
  match l with
  | [] => ret tt
  | x :: rest => body x ;;; for_each rest body
  end.

Definition print_stderr (line : string) : M unit :=
  fun w => (Ret tt, set_stderr (fun l => l ++ [line]) w).

Definition exn_name (e : exn) : string :=
  match e with
  | IndexError => "IndexError"
  | TypeError => "TypeError"
  | NotImplementedError => "NotImplementedError"
  | OSError m => ("OSError: " ++ m)%string
  | SyntaxError m => ("SyntaxError: " ++ m)%string
  | RuntimeError m => ("RuntimeError: " ++ m)%string
  | SystemExit => "SystemExit"
  | KeyboardInterrupt => "KeyboardInterrupt"
  end.

(** [traceback.format_exc()] for the exception being handled. *)
Definition format_exc (e : exn) : string :=
  ("Traceback (most recent call last): " ++ exn_name e)%string.

(** ** Paths *)

Definition ends_with_slash (s : string) : bool :=
  match get (String.length s - 1) s with
  | Some c => Ascii.eqb c "/"
  | None => false
  end.

(** [os.path.join(a, b)] of posixpath, for two components. *)
Definition os_path_join (a b : string) : string :=
  if String.prefix "/" b then b
  else if (String.eqb a EmptyString || ends_with_slash a)%bool then (a ++ b)%string
  else (a ++ "/" ++ b)%string.

Fixpoint basename_from (acc s : string) : string :=
  match s with
  | EmptyString => acc
  | String c r =>
      if Ascii.eqb c "/" then basename_from EmptyString r
      else basename_from (acc ++ String c EmptyString)%string r
  end.

(** [os.path.basename(p)]: what follows the last slash. *)
Definition os_path_basename (p : string) : string := basename_from EmptyString p.

(** ** load_scripts *)

(** What a path names: nothing, a regular file (reading it returns its
    text or raises), a directory with its entries in the order
    [os.listdir] gives them, or a directory that [os.listdir] cannot
    list and raises on. *)
Inductive fs_node : Type :=
| Absent
| File (read : outcome string)
| Directory (entries : list (string * fs_node))
| Unlistable (e : exn).

Section Discovery.

(** The interpreter: [compile(text, path, 'exec')] and
    [exec(compiled, module.__dict__)] for a module of the given name;
    [exec] returns the items of the module's dict after one execution
    of the file. *)
Variable code : Type.
Variable py_compile : string -> string -> outcome code.
Variable py_exec : code -> string -> outcome (list (string * pyobj)).
Variable fs : string -> fs_node.

Definition scan_binding (path : string) (binding : string * pyobj) : M unit :=
  let '(key, script_class) := binding in
  match script_class with
  | ObjClass c =>
      if (type_is_type script_class && issubclass c (cid_of Script))%bool
      then fun w => (Ret tt, set_scripts_data (fun l => l ++ [(c, path)]) w)
      else ret tt
  | ObjValue _ => ret tt
  end.

(** The body of the [try] of lines 73-84. *)
Definition load_file (fname path : string) (read : outcome string) : M unit :=
  text <- lift read ;;
  compiled <- lift (py_compile text path) ;;
  module_dict <- lift (py_exec compiled fname) ;;
  for_each module_dict (scan_binding path).

Definition load_entry (basedir : string) (entry : string * fs_node) : M unit :=
  let '(fname, node) := entry in
  let path := os_path_join basedir fname in
  match node with
  | File read =>
      try_except (load_file fname path read)
        (fun e => print_stderr ("Error loading script: " ++ fname)%string ;;;
                  print_stderr (format_exc e))
  | _ => ret tt
  end.

Definition load_scripts (basedir : string) : M unit :=
  match fs basedir with
  | Absent => ret tt
  | File _ => raise (OSError "NotADirectoryError")
  | Directory entries => for_each entries (load_entry basedir)
  | Unlistable e => raise e
  end.

End Discovery.

(** ** wrap_call *)

(** [wrap_call(func, filename, funcname, ..., default=default)]; the
    call of [func] on the remaining arguments is given by its outcome.
    Only an instance of [Exception] is caught. *)
Definition wrap_call {A} (func : outcome A) (fname funcname : string)
    (default : A) : M A :=
  match func with
  | Ret res => ret res
  | Raise e =>
      if is_exception e
      then print_stderr ("Error calling: " ++ fname ++ "/" ++ funcname)%string ;;;
           print_stderr (format_exc e) ;;;
           ret default
      else raise e
  end.

(** ** Python sequences *)

(** [l[k]] for an int [k]: negative indices count from the end. *)
Definition py_getitem {A} (l : list A) (k : Z) : outcome A :=
  let n := Z.of_nat (length l) in
  let k' := if (k <? 0)%Z then (k + n)%Z else k in
  if ((0 <=? k') && (k' <? n))%Z
  then match nth_error l (Z.to_nat k') with
       | Some x => Ret x
       | None => Raise IndexError
       end
  else Raise IndexError.

(** [l[a:b]] where each bound is [None] or a non-negative int. *)
Definition py_slice {A} (l : list A) (a b : option nat) : list A :=
  let start := match a with Some a' => a' | None => 0 end in
  let stop := match b with Some b' => b' | None => length l end in
  firstn (stop - start) (skipn start l).

(** [v == 0] *)
Definition py_eq_zero (v : pyval) : bool :=
  match v with
  | PyInt z => (z =? 0)%Z
  | PyBool b => negb b
  | _ => false
  end.

(** [v - 1] *)
Definition py_sub_one (v : pyval) : outcome Z :=
  match v with
  | PyInt z => Ret (z - 1)%Z
  | PyBool b => Ret ((if b then 1 else 0) - 1)%Z
  | _ => Raise TypeError
  end.

(** [x or y] for a title: [None] and the empty string are falsy. *)
Definition py_or (x : option string) (y : string) : string :=
  match x with
  | Some s => if String.eqb s EmptyString then y else s
  | None => y
  end.

Fixpoint update_nth {A} (k : nat) (f : A -> A) (l : list A) : list A :=
  match l, k with
  | [], _ => []
  | x :: r, O => f x :: r
  | x :: r, S k' => x :: update_nth k' f r
  end.

(** ** ScriptRunner.setup_ui *)

Definition get_scripts_data : M (list (pyclass * string)) :=
  fun w => (Ret (scripts_data w), w).
Definition get_self_scripts : M (list script) :=
  fun w => (Ret (self_scripts w), w).

(** [self.scripts.append(script)] *)
Definition append_script (s : script) : M unit :=
  fun w => (Ret tt, set_self_scripts (fun l => l ++ [s]) w).

(** Assignment to attributes of the [k]-th element of [self.scripts]. *)
Definition set_script_attrs (k : nat) (f : script -> script) : M unit :=
  fun w => (Ret tt, set_self_scripts (update_nth k f) w).

Definition with_args_from (n : nat) (s : script) : script :=
  mkScript (cls s) (filename s) (Some n) (args_to s).
Definition with_args_to (n : nat) (s : script) : script :=
  mkScript (cls s) (filename s) (args_from s) (Some n).

(** Lines 108-114: one round of the first loop. *)
Definition retain (is_img2img : bool) (d : pyclass * string) : M unit :=
  let '(script_class, path) := d in
  lift (m_init (meths_of script_class)) ;;;
  let script := mkScript script_class path None None in
  shown <- lift (m_show (meths_of (cls script)) is_img2img) ;;
  if negb shown then ret tt
  else append_script script.

(** Line 116: the list comprehension of the titles. *)
Fixpoint titles_of (l : list script) : M (list string) :=
  match l with
  | [] => ret []
  | script :: rest =>
      t <- wrap_call (m_title (meths_of (cls script))) (filename script) "title" None ;;
      ts <- titles_of rest ;;
      ret (py_or t (filename script ++ " [error]")%string :: ts)
  end.

(** Lines 133-134: the two attributes set on every control a script
    returns. *)
Definition tag_control (script : script) (control : component) : component :=
  mkComponent (widget_of control)
              (Some (os_path_basename (filename script))) false.

(** Lines 123-137: the second loop, over the elements [todo] of
    [self.scripts] from position [k] on, with the list [inputs] built so
    far. *)
Fixpoint place_controls (is_img2img : bool) (todo : list script) (k : nat)
    (inputs : list component) : M (list component) :=
  match todo with
  | [] => ret inputs
  | script :: rest =>
      set_script_attrs k (with_args_from (length inputs)) ;;;
      set_script_attrs k (with_args_to (length inputs)) ;;;
      controls <- wrap_call (m_ui (meths_of (cls script)) is_img2img)
                            (filename script) "ui" None ;;
      match controls with
      | None => place_controls is_img2img rest (S k) inputs
      | Some controls =>
          let inputs := inputs ++ map (tag_control script) controls in
          set_script_attrs k (with_args_to (length inputs)) ;;;
          place_controls is_img2img rest (S k) inputs
      end
  end.

Definition id_prefix (is_img2img : bool) : string :=
  if is_img2img then "img2img_" else "txt2img_".

(** Lines 107-114: the first loop. *)
Definition retain_all (is_img2img : bool) : M unit :=
  data <- get_scripts_data ;;
  for_each data (retain is_img2img).

(** Line 120: the dropdown that selects the script. *)
Definition selector_dropdown (is_img2img : bool) (titles : list string) : component :=
  mkComponent (Dropdown "Script" ("None" :: titles) "None" "index"
                        (id_prefix is_img2img ++ "scripts")%string)
              None true.

(** Line 139: the hidden textbox that carries the restraints. *)
Definition restraints_box (is_img2img : bool) : component :=
  mkComponent (Textbox "{}" (id_prefix is_img2img ++ "script_restraints_json")%string
                       false)
              None false.

Definition setup_ui (is_img2img : bool) : M (list component) :=
  retain_all is_img2img ;;;
  scripts <- get_self_scripts ;;
  titles <- titles_of scripts ;;
  let dropdown := selector_dropdown is_img2img titles in
  let inputs := [dropdown] in
  inputs <- place_controls is_img2img scripts 0 inputs ;;
  let script_restraints_json := restraints_box is_img2img in
  let inputs := inputs ++ [script_restraints_json] in
  ret inputs.

(** ** select_script *)

(** [args_from <= i < args_to]: the second comparison is evaluated only
    when the first holds; comparing [None] with an int raises. *)
Definition chained_le_lt (a : option nat) (i : nat) (b : option nat) : outcome bool :=
  match a with
  | None => Raise TypeError
  | Some a' =>
      if (a' <=? i)%nat
      then match b with
           | None => Raise TypeError
           | Some b' => Ret (i <? b')%nat
           end
      else Ret false
  end.

(** Line 153: the list comprehension over [range(len(inputs)-1)]. *)
Fixpoint shows (a b : option nat) (positions : list nat) : outcome (list update) :=
  match positions with
  | [] => Ret []
  | i :: rest =>
      match (if (i =? 0)%nat then Ret true else chained_le_lt a i b) with
      | Raise e => Raise e
      | Ret v =>
          match shows a b rest with
          | Raise e => Raise e
          | Ret us => Ret (gr_show v :: us)
          end
      end
  end.

Section Select.

(** [json.dumps] on the dicts [ui_restraints] returns. *)
Variable json_dumps : restraints -> string.

(** The closure registered on the dropdown; [n_inputs] is
    [len(inputs)] of the list [setup_ui] returned. *)
Definition select_script (n_inputs : nat) (script_index : Z) : M (list update) :=
  scripts <- get_self_scripts ;;
  sel <- (if ((0 <? script_index) && (script_index <=? Z.of_nat (length scripts)))%Z
          then script <- lift (py_getitem scripts (script_index - 1)) ;;
               ret (Some script, args_from script, args_to script)
          else ret (None, Some 0, Some 0)) ;;
  let '(script, a, b) := sel in
  us <- lift (shows a b (seq 0 (n_inputs - 1))) ;;
  r <- match script with
       | Some script => lift (m_ui_restraints (meths_of (cls script)))
       | None => ret []
       end ;;
  ret (us ++ [TextboxUpdate (json_dumps r) false]).

End Select.

(** ** ScriptRunner.run *)

(** [script.run(p, *script_args)] *)
Definition call_run (script : script) (p : StableDiffusionProcessing)
    (script_args : list pyval) : M (option Processed) :=
  fun w => (m_run (meths_of (cls script)) p script_args,
            set_events (fun l => l ++ [RunCalled script p script_args]) w).

(** [shared.total_tqdm.clear()] *)
Definition tqdm_clear : M unit :=
  fun w => (Ret tt, set_events (fun l => l ++ [TqdmClear]) w).

(** [run(self, p, *args)].  The elements of [self.scripts] are
    instances, never [None], so the test of line 180 does not fire. *)
Definition run (p : StableDiffusionProcessing) (args : list pyval)
    : M (option Processed) :=
  script_index <- lift (py_getitem args 0) ;;
  if py_eq_zero script_index then ret None
  else
    k <- lift (py_sub_one script_index) ;;
    scripts <- get_self_scripts ;;
    script <- lift (py_getitem scripts k) ;;
    let script_args := py_slice args (args_from script) (args_to script) in
    processed <- call_run script p script_args ;;
    tqdm_clear ;;;
    ret processed.

(** ** Notions the statements use *)

(** The exception of an outcome that no [except Exception] catches. *)
Definition escapes {A} (o : outcome A) : option exn :=
  match o with
  | Raise e => if is_exception e then None else Some e
  | Ret _ => None
  end.

(** The outcome is a return, or an exception [except Exception]
    catches. *)
Definition catchable {A} (o : outcome A) : Prop :=
  forall e, o = Raise e -> is_exception e = true.

(** The first exception that stops a loop over [l], when [stop] tells
    for each element whether the loop stops there. *)
Fixpoint first_stop {A} (stop : A -> option exn) (l : list A) : option exn :=
  match l with
  | [] => None
  | x :: rest =>
      match stop x with
      | Some e => Some e
      | None => first_stop stop rest
      end
  end.

(** The elements the loop reaches: those up to and including the one
    it stops at. *)
Fixpoint upto {A} (stop : A -> option exn) (l : list A) : list A :=
  match l with
  | [] => []
  | x :: rest =>
      match stop x with
      | Some _ => [x]
      | None => x :: upto stop rest
      end
  end.

(** A world that differs from [w] in [scripts_data] and [stderr] only. *)
Definition after_load (w : world) (data : list (pyclass * string))
    (lines : list string) : world :=
  mkWorld (scripts_data w ++ data) (self_scripts w) (stderr w ++ lines) (events w).

(** The test of line 83 on one value. *)
Definition is_script_class (o : pyobj) : bool :=
  match o with
  | ObjClass c => (type_is_type o && issubclass c (cid_of Script))%bool
  | ObjValue _ => false
  end.

(** The classes among the bindings of a module that pass the test, in
    the order of the bindings. *)
Fixpoint script_classes_in (module_dict : list (string * pyobj)) : list pyclass :=
  match module_dict with
  | [] => []
  | (_, ObjClass c) :: rest =>
      if is_script_class (ObjClass c) then c :: script_classes_in rest
      else script_classes_in rest
  | (_, ObjValue _) :: rest => script_classes_in rest
  end.

Section DiscoveryNotions.

Variable code : Type.
Variable py_compile : string -> string -> outcome code.
Variable py_exec : code -> string -> outcome (list (string * pyobj)).

(** The file cannot be read, or its text does not compile, or its
    top-level code raises: each time with the exception [e]. *)
Definition fails_with (fname path : string) (read : outcome string) (e : exn) : Prop :=
  read = Raise e
  \/ (exists text, read = Ret text /\ py_compile text path = Raise e)
  \/ (exists text compiled, read = Ret text /\ py_compile text path = Ret compiled
                            /\ py_exec compiled fname = Raise e).

(** The file is read, compiled and executed, and leaves the bindings
    [module_dict]. *)
Definition loads_as (fname path : string) (read : outcome string)
    (module_dict : list (string * pyobj)) : Prop :=
  exists text compiled, read = Ret text /\ py_compile text path = Ret compiled
                        /\ py_exec compiled fname = Ret module_dict.

(** The three steps of lines 74-80 for one file. *)
Definition file_outcome (fname path : string) (read : outcome string)
    : outcome (list (string * pyobj)) :=
  match read with
  | Raise e => Raise e
  | Ret text =>
      match py_compile text path with
      | Raise e => Raise e
      | Ret compiled => py_exec compiled fname
      end
  end.

(** What one directory entry adds to [scripts_data] and to [stderr]. *)
Definition contribution (basedir : string) (entry : string * fs_node)
    : list (pyclass * string) :=
  match entry with
  | (fname, File read) =>
      match file_outcome fname (os_path_join basedir fname) read with
      | Ret module_dict =>
          map (fun c => (c, os_path_join basedir fname)) (script_classes_in module_dict)
      | Raise _ => []
      end
  | _ => []
  end.

Definition log_lines (basedir : string) (entry : string * fs_node) : list string :=
  match entry with
  | (fname, File read) =>
      match file_outcome fname (os_path_join basedir fname) read with
      | Ret _ => []
      | Raise e =>
          if is_exception e
          then [("Error loading script: " ++ fname)%string; format_exc e]
          else []
      end
  | _ => []
  end.

(** The exception with which an entry stops the scan: that of a file
    whose reading, compiling or executing raises outside
    [Exception]. *)
Definition stops_scan (basedir : string) (entry : string * fs_node) : option exn :=
  match entry with
  | (fname, File read) => escapes (file_outcome fname (os_path_join basedir fname) read)
  | _ => None
  end.

(** The entry lets the scan go on: if it is a file and fails, it
    fails with an instance of [Exception]. *)
Definition passes (basedir : string) (entry : string * fs_node) : Prop :=
  forall fname read e,
    entry = (fname, File read) ->
    fails_with fname (os_path_join basedir fname) read e ->
    is_exception e = true.

End DiscoveryNotions.

(** ** Notions about sessions *)

(** The number of controls [ui] declares for the tab: none when it
    returns [None] or raises. *)
Definition ctrl_count (is_img2img : bool) (s : script) : nat :=
  match m_ui (meths_of (cls s)) is_img2img with
  | Ret (Some controls) => length controls
  | _ => 0
  end.

(** The controls of a script as they stand in [inputs]. *)
Definition controls_of (is_img2img : bool) (s : script) : list component :=
  match m_ui (meths_of (cls s)) is_img2img with
  | Ret (Some controls) => map (tag_control s) controls
  | _ => []
  end.

Definition fallback_title (s : script) : string := (filename s ++ " [error]")%string.

(** The entry of a script in the dropdown. *)
Definition display_title (s : script) : string :=
  match m_title (meths_of (cls s)) with
  | Ret t => py_or t (fallback_title s)
  | Raise _ => fallback_title s
  end.

Definition title_lines (s : script) : list string :=
  match m_title (meths_of (cls s)) with
  | Ret _ => []
  | Raise e =>
      if is_exception e
      then [("Error calling: " ++ filename s ++ "/" ++ "title")%string; format_exc e]
      else []
  end.

Definition ui_lines (is_img2img : bool) (s : script) : list string :=
  match m_ui (meths_of (cls s)) is_img2img with
  | Ret _ => []
  | Raise e =>
      if is_exception e
      then [("Error calling: " ++ filename s ++ "/" ++ "ui")%string; format_exc e]
      else []
  end.

(** The exception of the script's [title], or of its [ui] on the tab,
    that [wrap_call] lets through. *)
Definition title_escape (s : script) : option exn :=
  escapes (m_title (meths_of (cls s))).
Definition ui_escape (is_img2img : bool) (s : script) : option exn :=
  escapes (m_ui (meths_of (cls s)) is_img2img).

(** The scripts [l] with consecutive ranges from [start] on. *)
Fixpoint laid_out (is_img2img : bool) (start : nat) (l : list script) : list script :=
  match l with
  | [] => []
  | s :: rest =>
      mkScript (cls s) (filename s) (Some start) (Some (start + ctrl_count is_img2img s))
      :: laid_out is_img2img (start + ctrl_count is_img2img s) rest
  end.

(** The first loop over the descriptors [data]: the instances it
    appends, and the exception that stops it, if any. *)
Fixpoint scan (is_img2img : bool) (data : list (pyclass * string))
    : list script * option exn :=
  match data with
  | [] => ([], None)
  | (script_class, path) :: rest =>
      match m_init (meths_of script_class) with
      | Raise e => ([], Some e)
      | Ret _ =>
          match m_show (meths_of script_class) is_img2img with
          | Raise e => ([], Some e)
          | Ret shown =>
              let '(l, stop) := scan is_img2img rest in
              (if shown then mkScript script_class path None None :: l else l, stop)
          end
      end
  end.

(** The descriptor is instantiated and [show] returns true. *)
Definition shown_on (is_img2img : bool) (d : pyclass * string) : bool :=
  match m_show (meths_of (fst d)) is_img2img with
  | Ret true => true
  | _ => false
  end.

Definition origin (s : script) : pyclass * string := (cls s, filename s).

(** What a layout records of an instance. *)
Definition slot (s : script) : nat * string * option nat * option nat :=
  (cid_of (cls s), filename s, args_from s, args_to s).

(** Two descriptors that a build cannot tell apart: the same class
    object and path, and the same outcome of the constructor, of [show]
    and of [ui] on the tab. *)
Definition same_for_build (is_img2img : bool) (d1 d2 : pyclass * string) : Prop :=
  cid_of (fst d1) = cid_of (fst d2)
  /\ snd d1 = snd d2
  /\ m_init (meths_of (fst d1)) = m_init (meths_of (fst d2))
  /\ m_show (meths_of (fst d1)) is_img2img = m_show (meths_of (fst d2)) is_img2img
  /\ m_ui (meths_of (fst d1)) is_img2img = m_ui (meths_of (fst d2)) is_img2img.

(** Two instances of the same class object and file with as many
    controls. *)
Definition alike (is_img2img : bool) (s1 s2 : script) : Prop :=
  cid_of (cls s1) = cid_of (cls s2)
  /\ filename s1 = filename s2
  /\ ctrl_count is_img2img s1 = ctrl_count is_img2img s2.

(** ** Sample scripts, directories and sessions *)

Module Samples.

Definition slider (n : string) : component := mkComponent (Widget n) None true.

(** A script with two controls that reports how many arguments it got. *)
Definition upscale_methods : methods := {|
  m_init := Ret tt;
  m_title := Ret (Some "Upscale");
  m_ui := fun _ => Ret (Some [slider "scale"; slider "tile"]);
  m_ui_restraints := Ret [("methods", ["Euler"; "DDIM"])];
  m_show := fun _ => Ret true;
  m_run := fun _ args => Ret (Some (ProcessedImages (length args)));
  m_describe := Ret EmptyString
|}.
Definition Upscale : pyclass := Class 1 "Script" true [Script] upscale_methods.

(** A script offered on the img2img tab only, with one control. *)
Definition loopback_methods : methods := {|
  m_init := Ret tt;
  m_title := Ret (Some "Loopback");
  m_ui := fun _ => Ret (Some [slider "loops"]);
  m_ui_restraints := Ret [];
  m_show := fun is_img2img => Ret is_img2img;
  m_run := fun _ _ => Ret None;
  m_describe := Ret EmptyString
|}.
Definition Loopback : pyclass := Class 2 "Script" true [Upscale] loopback_methods.

(** A script whose [ui] raises. *)
Definition broken_ui_methods : methods := {|
  m_init := Ret tt;
  m_title := Ret (Some "Matrix");
  m_ui := fun _ => Raise (RuntimeError "ui");
  m_ui_restraints := Ret [];
  m_show := fun _ => Ret true;
  m_run := fun _ _ => Ret None;
  m_describe := Ret EmptyString
|}.
Definition BrokenUi : pyclass := Class 3 "Script" true [Script] broken_ui_methods.

(** A script whose [title] returns the empty string. *)
Definition untitled_methods : methods := {|
  m_init := Ret tt;
  m_title := Ret (Some EmptyString);
  m_ui := fun _ => Ret None;
  m_ui_restraints := Ret [];
  m_show := fun _ => Ret true;
  m_run := fun _ _ => Ret None;
  m_describe := Ret EmptyString
|}.
Definition Untitled : pyclass := Class 4 "Script" true [Script] untitled_methods.

(** A script whose [show] raises. *)
Definition broken_show_methods : methods := {|
  m_init := Ret tt;
  m_title := Ret (Some "Picky");
  m_ui := fun _ => Ret None;
  m_ui_restraints := Ret [];
  m_show := fun _ => Raise (RuntimeError "show");
  m_run := fun _ _ => Ret None;
  m_describe := Ret EmptyString
|}.
Definition BrokenShow : pyclass := Class 5 "Script" true [Script] broken_show_methods.

Definition empty_world : world := mkWorld [] [] [] [].

Definition registry (data : list (pyclass * string)) : world := mkWorld data [] [] [].

(** A toy interpreter: the text "def (" does not compile, "raise" raises
    when executed, "from modules.scripts import Script" binds the base
    class, anything else defines [Upscale]. *)
Definition toy_compile (text path : string) : outcome string :=
  if String.eqb text "def (" then Raise (SyntaxError "invalid syntax") else Ret text.

Definition toy_exec (compiled fname : string) : outcome (list (string * pyobj)) :=
  if String.eqb compiled "raise" then Raise (RuntimeError "boom")
  else if String.eqb compiled "from modules.scripts import Script"
  then Ret [("__name__", ObjValue (PyStr fname)); ("Script", ObjClass Script)]
  else Ret [("__name__", ObjValue (PyStr fname)); ("Script", ObjClass Upscale)].

Definition broken_py : string * fs_node := ("broken.py", File (Ret "def (")).
Definition upscale_py : string * fs_node := ("upscale.py", File (Ret "class Script")).
Definition base_py : string * fs_node :=
  ("base.py", File (Ret "from modules.scripts import Script")).

Definition dir_with (entries : list (string * fs_node)) (path : string) : fs_node :=
  if String.eqb path "scripts" then Directory entries else Absent.

(** [json.dumps] on the few dicts the samples use. *)
Definition toy_json (r : restraints) : string :=
  match r with
  | [] => "{}"
  | _ => "{...}"
  end.

(** A registry of four descriptors and the img2img session built
    from it on a new runner. *)
Definition demo_registry : world :=
  registry [(Upscale, "scripts/upscale.py"); (BrokenUi, "scripts/matrix.py");
            (Loopback, "scripts/loopback.py"); (Script, "scripts/base.py")].

Definition demo_session : world := snd (setup_ui true demo_registry).

Definition demo_inputs : list component :=
  match fst (setup_ui true demo_registry) with
  | Ret inputs => inputs
  | Raise _ => []
  end.

(** The same registry, seen by a second new runner after the first
    build has written to stderr. *)
Definition demo_registry_later : world :=
  mkWorld (scripts_data demo_session) [] (stderr demo_session) (events demo_session).

Definition untitled_registry : world :=
  registry [(Untitled, "scripts/untitled.py")].

Definition picky_registry : world :=
  registry [(BrokenShow, "scripts/picky.py"); (Upscale, "scripts/upscale.py")].

Definition upscale_registry : world :=
  registry [(Upscale, "scripts/upscale.py")].

Definition p0 : StableDiffusionProcessing := Processing 0.

(** The values of the controls after the selector: two for Upscale,
    one for Loopback, and the restraints textbox. *)
Definition control_values : list pyval :=
  [PyStr "2"; PyStr "64"; PyInt 3; PyStr "{}"].

End Samples.

(** ** Further notions *)

(** The instance the first loop of [setup_ui] makes of a descriptor. *)
Definition fresh_instance (d : pyclass * string) : script :=
  mkScript (fst d) (snd d) None None.

(** The constructor of the descriptor's class returns and so does its
    [show] on the tab. *)
Definition answers_show (is_img2img : bool) (d : pyclass * string) : Prop :=
  m_init (meths_of (fst d)) = Ret tt
  /\ exists shown, m_show (meths_of (fst d)) is_img2img = Ret shown.

(** The constructor of the descriptor's class raises [e], or it returns
    and [show] raises [e]. *)
Definition fails_show (is_img2img : bool) (d : pyclass * string) (e : exn) : Prop :=
  m_init (meths_of (fst d)) = Raise e
  \/ (m_init (meths_of (fst d)) = Ret tt
      /\ m_show (meths_of (fst d)) is_img2img = Raise e).

(** The name has no slash in it. *)
Fixpoint no_slash (s : string) : bool :=
  match s with
  | EmptyString => true
  | String c r => (negb (Ascii.eqb c "/") && no_slash r)%bool
  end.

Module Fixtures.

(** A class that derives from [Script] but whose metaclass is not
  [type]. *)
Definition Abstract : pyclass :=
Class 6 "Script" false [Script] Samples.upscale_methods.

(** A class that overrides nothing of [Script]. *)
Definition Plain : pyclass := Class 7 "Script" true [Script] Script_methods.

(** A script whose [ui_restraints] raises. *)
Definition broken_restraints_methods : methods := {|
m_init := Ret tt;
m_title := Ret (Some "Prompt matrix");
m_ui := fun _ => Ret (Some [Samples.slider "rows"]);
m_ui_restraints := Raise (RuntimeError "restraints");
m_show := fun _ => Ret true;
m_run := fun _ _ => Raise (RuntimeError "run");
m_describe := Ret EmptyString
|}.
Definition BrokenRestraints : pyclass :=
Class 8 "Script" true [Script] broken_restraints_methods.

(** A script whose [ui] calls [sys.exit()]. *)
Definition exit_ui_methods : methods := {|
m_init := Ret tt;
m_title := Ret (Some "Quit");
m_ui := fun _ => Raise SystemExit;
m_ui_restraints := Ret [];
m_show := fun _ => Ret true;
m_run := fun _ _ => Ret None;
m_describe := Ret EmptyString
|}.
Definition ExitUi : pyclass := Class 9 "Script" true [Script] exit_ui_methods.

Definition exit_ui_registry : world :=
Samples.registry [(Samples.Upscale, "scripts/upscale.py");
                  (ExitUi, "scripts/quit.py")].

(** A toy interpreter in which the text "sys.exit()" raises
  [SystemExit] when executed. *)
Definition exit_exec (compiled fname : string) : outcome (list (string * pyobj)) :=
if String.eqb compiled "sys.exit()" then Raise SystemExit
else Samples.toy_exec compiled fname.

Definition exit_py : string * fs_node := ("exit.py", File (Ret "sys.exit()")).

(** A toy interpreter for a file with several bindings. *)
Definition many_exec (compiled fname : string) : outcome (list (string * pyobj)) :=
Ret [("__name__", ObjValue (PyStr fname)); ("A", ObjClass Samples.Upscale);
     ("B", ObjClass Abstract); ("C", ObjClass Samples.Loopback)].

Definition many_py : string * fs_node := ("many.py", File (Ret "class A")).
Definition subdir : string * fs_node := ("lib", Directory [Samples.upscale_py]).

(** A session with a script whose [ui_restraints] and [run] raise, and
  one that overrides nothing. *)
Definition mixed_registry : world :=
Samples.registry [(Samples.Upscale, "scripts/upscale.py");
                  (BrokenRestraints, "scripts/matrix.py");
                  (Plain, "scripts/plain.py")].

Definition mixed_session : world := snd (setup_ui false mixed_registry).

Definition mixed_inputs : list component :=
match fst (setup_ui false mixed_registry) with
| Ret inputs => inputs
| Raise _ => []
end.

(** A registry whose third descriptor raises in [show], after one
  script that is shown and one that is not. *)
Definition late_failure_registry : world :=
Samples.registry [(Samples.Upscale, "scripts/upscale.py");
                  (Samples.Loopback, "scripts/loopback.py");
                  (Samples.BrokenShow, "scripts/picky.py");
                  (Samples.Untitled, "scripts/untitled.py")].

(** One value per element of [mixed_inputs] after the selector. *)
Definition mixed_values : list pyval :=
[PyStr "2"; PyStr "64"; PyInt 3; PyStr "{}"].

End Fixtures.

(** * Properties *)

(** ** The monad *)

Lemma bind_ret_l {A B} (a : A) (k : A -> M B) (w : world) :
  bind (ret a) k w = k a w.
Proof. reflexivity. Qed.

Lemma after_load_nil (w : world) : after_load w [] [] = w.
Proof. destruct w; unfold after_load; simpl. now rewrite !app_nil_r. Qed.

Lemma after_load_after_load (w : world) d1 l1 d2 l2 :
  after_load (after_load w d1 l1) d2 l2 = after_load w (d1 ++ d2) (l1 ++ l2).
Proof. unfold after_load; simpl. now rewrite !app_assoc. Qed.

(** ** Loops that an exception stops *)

Lemma upto_passed {A} (stop : A -> option exn) (pre l : list A) :
  Forall (fun x => stop x = None) pre ->
  upto stop (pre ++ l) = pre ++ upto stop l
  /\ first_stop stop (pre ++ l) = first_stop stop l.
Proof.
  induction 1 as [|x pre Hx _ [IH1 IH2]]; simpl; [now split|].
  rewrite Hx, IH1, IH2. now split.
Qed.

Lemma upto_all {A} (stop : A -> option exn) (l : list A) :
  first_stop stop l = None -> upto stop l = l.
Proof.
  induction l as [|x l IH]; simpl; [reflexivity|].
  destruct (stop x); [discriminate|]. intros H. now rewrite IH.
Qed.

Lemma first_stop_none {A} (stop : A -> option exn) (l : list A) :
  first_stop stop l = None <-> Forall (fun x => stop x = None) l.
Proof.
  induction l as [|x l IH]; simpl.
  - split; [constructor | reflexivity].
  - destruct (stop x) eqn:Hx.
    + split; [discriminate|]. intros H. inversion H; subst. congruence.
    + rewrite IH. split; [now constructor | intros H; now inversion H].
Qed.

Lemma escapes_none {A} (o : outcome A) : escapes o = None <-> catchable o.
Proof.
  unfold escapes, catchable. destruct o as [a|e].
  - split; [discriminate | reflexivity].
  - destruct (is_exception e) eqn:He.
    + split; [|reflexivity]. intros _ e' H. now inversion H; subst.
    + split; [discriminate|]. intros H. specialize (H e eq_refl). congruence.
Qed.

(** ** Discovery *)

Section DiscoveryFacts.

Variable code : Type.
Variable py_compile : string -> string -> outcome code.
Variable py_exec : code -> string -> outcome (list (string * pyobj)).

Lemma scan_bindings (path : string) (module_dict : list (string * pyobj)) (w : world) :
  for_each module_dict (scan_binding path) w
  = (Ret tt, after_load w (map (fun c => (c, path)) (script_classes_in module_dict)) []).
Proof.
  revert w. induction module_dict as [|[key o] rest IH]; intros w; simpl.
  - now rewrite after_load_nil.
  - unfold bind. destruct o as [c|v]; simpl.
    + destruct (meta_is_type c && issubclass c 0)%bool; simpl; rewrite IH.
      * f_equal. unfold after_load, set_scripts_data; simpl.
        now rewrite <- app_assoc, !app_nil_r.
      * reflexivity.
    + apply IH.
Qed.

Lemma load_entry_effect (basedir : string) (entry : string * fs_node) (w : world) :
  load_entry code py_compile py_exec basedir entry w
  = (match stops_scan code py_compile py_exec basedir entry with
     | None => Ret tt
     | Some e => Raise e
     end,
     after_load w (contribution code py_compile py_exec basedir entry)
                  (log_lines code py_compile py_exec basedir entry)).
Proof.
  destruct entry as [fname node]. unfold load_entry, contribution, log_lines, stops_scan.
  destruct node as [|read|sub|x]; try (unfold ret; now rewrite after_load_nil).
  unfold try_except, load_file, file_outcome, escapes, bind, lift.
  destruct read as [text|e].
  - destruct (py_compile text (os_path_join basedir fname)) as [compiled|e].
    + destruct (py_exec compiled fname) as [module_dict|e].
      * rewrite scan_bindings. reflexivity.
      * destruct (is_exception e); [|now rewrite after_load_nil].
        unfold print_stderr, after_load, set_stderr; simpl.
        now rewrite <- app_assoc, app_nil_r.
    + destruct (is_exception e); [|now rewrite after_load_nil].
      unfold print_stderr, after_load, set_stderr; simpl.
      now rewrite <- app_assoc, app_nil_r.
  - destruct (is_exception e); [|now rewrite after_load_nil].
    unfold print_stderr, after_load, set_stderr; simpl.
    now rewrite <- app_assoc, app_nil_r.
Qed.

Lemma load_entries_effect (basedir : string) (entries : list (string * fs_node))
    (w : world) :
  for_each entries (load_entry code py_compile py_exec basedir) w
  = (match first_stop (stops_scan code py_compile py_exec basedir) entries with
     | None => Ret tt
     | Some e => Raise e
     end,
     after_load w
       (flat_map (contribution code py_compile py_exec basedir)
                 (upto (stops_scan code py_compile py_exec basedir) entries))
       (flat_map (log_lines code py_compile py_exec basedir)
                 (upto (stops_scan code py_compile py_exec basedir) entries))).
Proof.
  revert w. induction entries as [|entry rest IH]; intros w; simpl.
  - now rewrite after_load_nil.
  - unfold bind. rewrite load_entry_effect.
    destruct (stops_scan code py_compile py_exec basedir entry) as [e|].
    + simpl. now rewrite !app_nil_r.
    + rewrite IH, after_load_after_load. reflexivity.
Qed.

Lemma load_scripts_directory (fs : string -> fs_node) (basedir : string)
    (entries : list (string * fs_node)) (w : world) :
  fs basedir = Directory entries ->
  load_scripts code py_compile py_exec fs basedir w
  = (match first_stop (stops_scan code py_compile py_exec basedir) entries with
     | None => Ret tt
     | Some e => Raise e
     end,
     after_load w
       (flat_map (contribution code py_compile py_exec basedir)
                 (upto (stops_scan code py_compile py_exec basedir) entries))
       (flat_map (log_lines code py_compile py_exec basedir)
                 (upto (stops_scan code py_compile py_exec basedir) entries))).
Proof.
  intros Hdir. unfold load_scripts. rewrite Hdir. apply load_entries_effect.
Qed.

Lemma failing_file_outcome fname path read e :
  fails_with code py_compile py_exec fname path read e ->
  file_outcome code py_compile py_exec fname path read = Raise e.
Proof.
  unfold fails_with, file_outcome.
  intros [H | [(text & Hr & Hc) | (text & compiled & Hr & Hc & He)]].
  - now rewrite H.
  - now rewrite Hr, Hc.
  - now rewrite Hr, Hc, He.
Qed.

Lemma loading_file_outcome fname path read module_dict :
  loads_as code py_compile py_exec fname path read module_dict ->
  file_outcome code py_compile py_exec fname path read = Ret module_dict.
Proof.
  unfold loads_as, file_outcome. intros (text & compiled & Hr & Hc & He).
  now rewrite Hr, Hc, He.
Qed.

Lemma file_outcome_fails fname path read e :
  file_outcome code py_compile py_exec fname path read = Raise e ->
  fails_with code py_compile py_exec fname path read e.
Proof.
  unfold file_outcome, fails_with. destruct read as [text|x].
  - destruct (py_compile text path) as [compiled|x] eqn:Hc.
    + intros He. right; right. now exists text, compiled.
    + intros H. inversion H; subst. right; left. now exists text.
  - intros H. inversion H; subst. now left.
Qed.

Lemma passes_stops (basedir : string) (entry : string * fs_node) :
  passes code py_compile py_exec basedir entry
  <-> stops_scan code py_compile py_exec basedir entry = None.
Proof.
  unfold passes, stops_scan. destruct entry as [fname node].
  destruct node as [|read|sub|x]; try (split; [reflexivity | intros _ ? ? ? H; discriminate]).
  rewrite escapes_none. unfold catchable. split.
  - intros H e He. apply (H fname read e eq_refl). now apply file_outcome_fails.
  - intros H f r e Heq Hfail. inversion Heq; subst. apply H.
    now apply failing_file_outcome.
Qed.

Lemma passes_all (basedir : string) (entries : list (string * fs_node)) :
  Forall (passes code py_compile py_exec basedir) entries ->
  Forall (fun x => stops_scan code py_compile py_exec basedir x = None) entries.
Proof.
  intros H. eapply Forall_impl; [|exact H]. intros x. apply passes_stops.
Qed.

End DiscoveryFacts.

Section DiscoveryTheorems.

Variable code : Type.
Variable py_compile : string -> string -> outcome code.
Variable py_exec : code -> string -> outcome (list (string * pyobj)).

Lemma script_classes_in_complete (module_dict : list (string * pyobj)) key c :
  In (key, ObjClass c) module_dict ->
  is_script_class (ObjClass c) = true ->
  In c (script_classes_in module_dict).
Proof.
  intros Hin Hcls. induction module_dict as [|[k o] rest IH]; simpl in *.
  - contradiction.
  - destruct Hin as [Heq | Hin].
    + inversion Heq; subst. simpl in Hcls. rewrite Hcls. now left.
    + destruct o as [c'|v]; [|now apply IH].
      destruct (meta_is_type c' && issubclass c' 0)%bool; [right|]; now apply IH.
Qed.

(** C4, as the code has it.  A file of the scanned directory that the
    scan reaches and that cannot be read, does not compile or raises
    while executing, each time with an instance of [Exception], adds
    no descriptor: the scan ends as it would without that file and
    leaves the registry it would leave without it, so the files
    before and after it contribute as usual; what the file adds is
    two lines on stderr, the first with the file name and the second
    with the trace.  When no later file stops the scan, it returns.
    When the only other entry is a file that loads, the scan returns
    and the registry gains exactly the script classes of that
    file. *)
Theorem load_scripts_isolates_failing_file
    (fs fs' : string -> fs_node) (basedir : string)
    (pre post : list (string * fs_node)) (fname : string)
    (read : outcome string) (e : exn) (w : world) :
  fs basedir = Directory (pre ++ (fname, File read) :: post) ->
  fs' basedir = Directory (pre ++ post) ->
  Forall (passes code py_compile py_exec basedir) pre ->
  fails_with code py_compile py_exec fname (os_path_join basedir fname) read e ->
  is_exception e = true ->
  exists r data lines_pre lines_post,
    load_scripts code py_compile py_exec fs basedir w
    = (r, after_load w data
            (lines_pre
             ++ [("Error loading script: " ++ fname)%string; format_exc e]
             ++ lines_post))
    /\ load_scripts code py_compile py_exec fs' basedir w
       = (r, after_load w data (lines_pre ++ lines_post))
    /\ (Forall (passes code py_compile py_exec basedir) post -> r = Ret tt)
    /\ (forall good gread module_dict,
           pre ++ post = [(good, File gread)] ->
           loads_as code py_compile py_exec good (os_path_join basedir good) gread
                    module_dict ->
           r = Ret tt
           /\ data = map (fun c => (c, os_path_join basedir good))
                         (script_classes_in module_dict)).
Proof.
  intros Hfs Hfs' Hpre Hfail Hexc.
  set (stop := stops_scan code py_compile py_exec basedir).
  apply failing_file_outcome in Hfail.
  assert (Hbad : stop (fname, File read) = None).
  { unfold stop, stops_scan, escapes. now rewrite Hfail, Hexc. }
  apply passes_all in Hpre. fold stop in Hpre.
  destruct (upto_passed stop pre ((fname, File read) :: post) Hpre) as [Hup Hfirst].
  destruct (upto_passed stop pre post Hpre) as [Hup' Hfirst'].
  cbn [upto first_stop] in Hup, Hfirst. rewrite Hbad in Hup, Hfirst.
  exists (match first_stop stop post with None => Ret tt | Some x => Raise x end),
         (flat_map (contribution code py_compile py_exec basedir) (pre ++ upto stop post)),
         (flat_map (log_lines code py_compile py_exec basedir) pre),
         (flat_map (log_lines code py_compile py_exec basedir) (upto stop post)).
  split; [|split; [|split]].
  - rewrite (load_scripts_directory _ _ _ _ _ _ w Hfs). fold stop.
    rewrite Hup, Hfirst, !flat_map_app. cbn [flat_map].
    unfold contribution at 2, log_lines at 2. rewrite Hfail, Hexc. reflexivity.
  - rewrite (load_scripts_directory _ _ _ _ _ _ w Hfs'). fold stop.
    now rewrite Hup', Hfirst', !flat_map_app.
  - intros Hpost. apply passes_all in Hpost. fold stop in Hpost.
    apply first_stop_none in Hpost. now rewrite Hpost.
  - intros good gread module_dict Hone Hload.
    apply loading_file_outcome in Hload.
    assert (Hgood : first_stop stop (pre ++ post) = None).
    { rewrite Hone. cbn [first_stop]. unfold stop, stops_scan, escapes.
      now rewrite Hload. }
    rewrite Hfirst' in Hgood. rewrite Hgood, (upto_all _ _ Hgood), Hone.
    split; [reflexivity|]. cbn [flat_map]. unfold contribution.
    rewrite Hload. apply app_nil_r.
Qed.

(** C10. The class test of the scan accepts the base class itself:
    when the scan reaches a file of the directory, the file loads and
    one of its top-level bindings is [Script], the pair of [Script]
    and the file's path is among the descriptors the scan appends,
    whatever the files after it do; when none of those stops the
    scan, it returns. *)
Theorem load_scripts_registers_base_class
    (fs : string -> fs_node) (basedir : string)
    (pre post : list (string * fs_node)) (fname : string)
    (read : outcome string) (module_dict : list (string * pyobj))
    (key : string) (w : world) :
  fs basedir = Directory (pre ++ (fname, File read) :: post) ->
  Forall (passes code py_compile py_exec basedir) pre ->
  loads_as code py_compile py_exec fname (os_path_join basedir fname) read module_dict ->
  In (key, ObjClass Script) module_dict ->
  is_script_class (ObjClass Script) = true
  /\ (exists before after,
         scripts_data (snd (load_scripts code py_compile py_exec fs basedir w))
         = scripts_data w ++ before ++ (Script, os_path_join basedir fname) :: after)
  /\ (Forall (passes code py_compile py_exec basedir) post ->
      fst (load_scripts code py_compile py_exec fs basedir w) = Ret tt).
Proof.
  intros Hfs Hpre Hload Hin. split; [reflexivity|].
  set (stop := stops_scan code py_compile py_exec basedir).
  apply loading_file_outcome in Hload.
  assert (Hok : stop (fname, File read) = None).
  { unfold stop, stops_scan, escapes. now rewrite Hload. }
  apply passes_all in Hpre. fold stop in Hpre.
  destruct (upto_passed stop pre ((fname, File read) :: post) Hpre) as [Hup Hfirst].
  cbn [upto first_stop] in Hup, Hfirst. rewrite Hok in Hup, Hfirst.
  rewrite (load_scripts_directory _ _ _ _ _ _ w Hfs). fold stop.
  rewrite Hup, Hfirst. split.
  - cbn [snd after_load scripts_data].
    rewrite !flat_map_app. cbn [flat_map]. unfold contribution at 2. rewrite Hload.
    assert (Hc : In Script (script_classes_in module_dict))
      by (eapply script_classes_in_complete; [eassumption | reflexivity]).
    apply in_split in Hc. destruct Hc as (l1 & l2 & Hc). rewrite Hc, map_app. simpl.
    exists (flat_map (contribution code py_compile py_exec basedir) pre
            ++ map (fun c => (c, os_path_join basedir fname)) l1),
           (map (fun c => (c, os_path_join basedir fname)) l2
            ++ flat_map (contribution code py_compile py_exec basedir) (upto stop post)).
    now rewrite <- !app_assoc.
  - intros Hpost. apply passes_all in Hpost. fold stop in Hpost.
    apply first_stop_none in Hpost. now rewrite Hpost.
Qed.

End DiscoveryTheorems.

Lemma sample_entry_passes (entry : string * fs_node) :
  entry = Samples.broken_py \/ entry = Samples.upscale_py \/ entry = Samples.base_py ->
  passes string Samples.toy_compile Samples.toy_exec "scripts" entry.
Proof.
  intros H. apply passes_stops. destruct H as [-> | [-> | ->]]; reflexivity.
Qed.

Lemma load_scripts_isolates_failing_file_witness :
  exists r data lines_pre lines_post,
    load_scripts string Samples.toy_compile Samples.toy_exec
      (Samples.dir_with [Samples.broken_py; Samples.upscale_py]) "scripts"
      Samples.empty_world
    = (r, after_load Samples.empty_world data
            (lines_pre
             ++ ["Error loading script: broken.py";
                 format_exc (SyntaxError "invalid syntax")]
             ++ lines_post))
    /\ load_scripts string Samples.toy_compile Samples.toy_exec
         (Samples.dir_with [Samples.upscale_py]) "scripts" Samples.empty_world
       = (r, after_load Samples.empty_world data (lines_pre ++ lines_post))
    /\ (Forall (passes string Samples.toy_compile Samples.toy_exec "scripts")
               [Samples.upscale_py] -> r = Ret tt)
    /\ (forall good gread module_dict,
           [] ++ [Samples.upscale_py] = [(good, File gread)] ->
           loads_as string Samples.toy_compile Samples.toy_exec good
                    (os_path_join "scripts" good) gread module_dict ->
           r = Ret tt
           /\ data = map (fun c => (c, os_path_join "scripts" good))
                         (script_classes_in module_dict)).
Proof.
  apply (load_scripts_isolates_failing_file string Samples.toy_compile Samples.toy_exec
           (Samples.dir_with [Samples.broken_py; Samples.upscale_py])
           (Samples.dir_with [Samples.upscale_py])
           "scripts" [] [Samples.upscale_py] "broken.py" (Ret "def (")
           (SyntaxError "invalid syntax") Samples.empty_world).
  - reflexivity.
  - reflexivity.
  - constructor.
  - right; left. exists "def (". split; reflexivity.
  - reflexivity.
Defined.

(** A file whose top-level code calls [sys.exit()] raises while it is
    executed, but [SystemExit] is not an instance of [Exception]: the
    scan is left with that exception, nothing is logged, and the file
    after it, which alone would give a descriptor, is never read. *)
Lemma load_scripts_stopped_by_system_exit :
  fails_with string Samples.toy_compile Fixtures.exit_exec "exit.py"
             (os_path_join "scripts" "exit.py") (Ret "sys.exit()") SystemExit
  /\ load_scripts string Samples.toy_compile Fixtures.exit_exec
       (Samples.dir_with [Fixtures.exit_py; Samples.upscale_py]) "scripts"
       Samples.empty_world
     = (Raise SystemExit, Samples.empty_world)
  /\ load_scripts string Samples.toy_compile Fixtures.exit_exec
       (Samples.dir_with [Samples.upscale_py]) "scripts" Samples.empty_world
     = (Ret tt, mkWorld [(Samples.Upscale, "scripts/upscale.py")] [] [] []).
Proof.
  split; [|split; reflexivity].
  right; right. exists "sys.exit()", "sys.exit()". repeat split; reflexivity.
Qed.

Lemma load_scripts_registers_base_class_witness :
  is_script_class (ObjClass Script) = true
  /\ (exists before after,
         scripts_data (snd (load_scripts string Samples.toy_compile Samples.toy_exec
                              (Samples.dir_with [Samples.broken_py; Samples.base_py])
                              "scripts" Samples.empty_world))
         = scripts_data Samples.empty_world
           ++ before ++ (Script, os_path_join "scripts" "base.py") :: after)
  /\ (Forall (passes string Samples.toy_compile Samples.toy_exec "scripts") [] ->
      fst (load_scripts string Samples.toy_compile Samples.toy_exec
             (Samples.dir_with [Samples.broken_py; Samples.base_py]) "scripts"
             Samples.empty_world) = Ret tt).
Proof.
  apply (load_scripts_registers_base_class string Samples.toy_compile Samples.toy_exec
           (Samples.dir_with [Samples.broken_py; Samples.base_py]) "scripts"
           [Samples.broken_py] [] "base.py"
           (Ret "from modules.scripts import Script")
           [("__name__", ObjValue (PyStr "base.py")); ("Script", ObjClass Script)]
           "Script" Samples.empty_world).
  - reflexivity.
  - constructor; [|constructor]. apply sample_entry_passes. now left.
  - exists "from modules.scripts import Script", "from modules.scripts import Script".
    repeat split; reflexivity.
  - simpl. right. left. reflexivity.
Defined.

(** What the scan of a directory with a file that does not compile and a
    file that imports the base class leaves behind. *)
Example load_scripts_sample :
  load_scripts string Samples.toy_compile Samples.toy_exec
    (Samples.dir_with [Samples.broken_py; Samples.base_py]) "scripts" Samples.empty_world
  = (Ret tt,
     mkWorld [(Script, "scripts/base.py")] []
             ["Error loading script: broken.py";
              "Traceback (most recent call last): SyntaxError: invalid syntax"]
             []).
Proof. reflexivity. Qed.

(** ** Building a session *)

Lemma update_nth_app {A} (done : list A) (x : A) (rest : list A) (f : A -> A) :
  update_nth (length done) f (done ++ x :: rest) = done ++ f x :: rest.
Proof. induction done as [|y done IH]; simpl; [reflexivity | now rewrite IH]. Qed.

Lemma scan_effect (b : bool) (data : list (pyclass * string)) (w : world) :
  for_each data (retain b) w
  = (match snd (scan b data) with None => Ret tt | Some e => Raise e end,
     set_self_scripts (fun l => l ++ fst (scan b data)) w).
Proof.
  revert w. induction data as [|[c path] rest IH]; intros w; simpl.
  - unfold ret, set_self_scripts. destruct w; simpl. now rewrite app_nil_r.
  - unfold bind, lift. destruct (m_init (meths_of c)) as [[]|e]; simpl.
    + destruct (m_show (meths_of c) b) as [shown|e]; simpl.
      * destruct shown; simpl; rewrite IH; destruct (scan b rest) as [l stop]; simpl.
        -- unfold set_self_scripts; simpl. now rewrite <- app_assoc.
        -- reflexivity.
      * unfold set_self_scripts. destruct w; simpl. now rewrite app_nil_r.
    + unfold set_self_scripts. destruct w; simpl. now rewrite app_nil_r.
Qed.

Lemma retain_all_effect (b : bool) (w : world) :
  retain_all b w
  = (match snd (scan b (scripts_data w)) with None => Ret tt | Some e => Raise e end,
     set_self_scripts (fun l => l ++ fst (scan b (scripts_data w))) w).
Proof. unfold retain_all, bind, get_scripts_data. apply scan_effect. Qed.

Lemma titles_of_effect (l : list script) (w : world) :
  titles_of l w
  = (match first_stop title_escape l with
     | None => Ret (map display_title l)
     | Some e => Raise e
     end,
     set_stderr (fun x => x ++ flat_map title_lines (upto title_escape l)) w).
Proof.
  revert w. induction l as [|s rest IH]; intros w.
  - simpl. unfold ret, set_stderr. destruct w; simpl. now rewrite app_nil_r.
  - cbn [titles_of first_stop upto map].
    assert (Hd : display_title s
                 = match m_title (meths_of (cls s)) with
                   | Ret t => py_or t (filename s ++ " [error]")%string
                   | Raise _ => (filename s ++ " [error]")%string
                   end) by reflexivity.
    assert (Hl : title_lines s
                 = match m_title (meths_of (cls s)) with
                   | Ret _ => []
                   | Raise e =>
                       if is_exception e
                       then [("Error calling: " ++ filename s ++ "/" ++ "title")%string;
                             format_exc e]
                       else []
                   end) by reflexivity.
    assert (He : title_escape s = escapes (m_title (meths_of (cls s)))) by reflexivity.
    unfold bind at 1. unfold wrap_call.
    destruct (m_title (meths_of (cls s))) as [t|e]; cbn [escapes] in He.
    + rewrite He. unfold ret at 1. unfold bind at 1. rewrite IH.
      destruct (first_stop title_escape rest); cbn [flat_map]; rewrite Hl, ?Hd;
        reflexivity.
    + destruct (is_exception e).
      * rewrite He. unfold bind, print_stderr, ret. rewrite IH.
        cbn [flat_map]. rewrite Hl, Hd. unfold set_stderr; simpl.
        rewrite <- !app_assoc. destruct (first_stop title_escape rest); reflexivity.
      * rewrite He. unfold raise. cbn [flat_map]. rewrite Hl.
        unfold set_stderr. destruct w; simpl. now rewrite app_nil_r.
Qed.

Lemma ui_returns_controls (b : bool) (s : script) (controls : list component) :
  m_ui (meths_of (cls s)) b = Ret (Some controls) ->
  controls_of b s = map (tag_control s) controls
  /\ ctrl_count b s = length controls /\ ui_lines b s = [].
Proof. intros H. unfold controls_of, ctrl_count, ui_lines. now rewrite H. Qed.

Lemma ui_returns_none (b : bool) (s : script) :
  m_ui (meths_of (cls s)) b = Ret None ->
  controls_of b s = [] /\ ctrl_count b s = 0 /\ ui_lines b s = [].
Proof. intros H. unfold controls_of, ctrl_count, ui_lines. now rewrite H. Qed.

Lemma ui_raises (b : bool) (s : script) (e : exn) :
  m_ui (meths_of (cls s)) b = Raise e ->
  is_exception e = true ->
  controls_of b s = [] /\ ctrl_count b s = 0
  /\ ui_lines b s = [("Error calling: " ++ filename s ++ "/" ++ "ui")%string; format_exc e].
Proof. intros H He. unfold controls_of, ctrl_count, ui_lines. now rewrite H, He. Qed.

Lemma place_controls_effect (b : bool) (todo done : list script)
    (inputs : list component) (w : world) :
  first_stop (ui_escape b) todo = None ->
  self_scripts w = done ++ todo ->
  place_controls b todo (length done) inputs w
  = (Ret (inputs ++ flat_map (controls_of b) todo),
     mkWorld (scripts_data w) (done ++ laid_out b (length inputs) todo)
             (stderr w ++ flat_map (ui_lines b) todo) (events w)).
Proof.
  revert done inputs w. induction todo as [|s rest IH]; intros done inputs w Hstop Hw;
    destruct w as [data scripts err ev]; simpl in Hw; subst scripts.
  - simpl. unfold ret. now rewrite !app_nil_r.
  - cbn [first_stop] in Hstop. unfold ui_escape at 1, escapes in Hstop.
    cbn [place_controls]. unfold bind, set_script_attrs, set_self_scripts, wrap_call.
    cbn [self_scripts scripts_data stderr events].
    rewrite !update_nth_app. cbn [flat_map laid_out].
    destruct (m_ui (meths_of (cls s)) b) as [[controls|]|e] eqn:Hui.
    + destruct (ui_returns_controls b s controls Hui) as (-> & -> & ->).
      unfold ret. cbn [self_scripts scripts_data stderr events].
      rewrite update_nth_app.
      lazymatch goal with
      | |- place_controls _ _ _ ?i (mkWorld _ (_ ++ ?s1 :: _) _ _) = _ =>
          specialize (IH (done ++ [s1]) i (mkWorld data ((done ++ [s1]) ++ rest) err ev)
                         Hstop eq_refl)
      end.
      rewrite length_app, Nat.add_1_r, <- app_assoc in IH.
      cbn [app length self_scripts scripts_data stderr events] in IH. rewrite IH.
      cbn [self_scripts scripts_data stderr events].
      rewrite length_app, length_map, <- !app_assoc. reflexivity.
    + destruct (ui_returns_none b s Hui) as (-> & -> & ->).
      unfold ret.
      lazymatch goal with
      | |- place_controls _ _ _ ?i (mkWorld _ (_ ++ ?s1 :: _) _ _) = _ =>
          specialize (IH (done ++ [s1]) i (mkWorld data ((done ++ [s1]) ++ rest) err ev)
                         Hstop eq_refl)
      end.
      rewrite length_app, Nat.add_1_r, <- app_assoc in IH.
      cbn [app length self_scripts scripts_data stderr events] in IH. rewrite IH.
      cbn [self_scripts scripts_data stderr events].
      rewrite Nat.add_0_r, <- !app_assoc. reflexivity.
    + destruct (is_exception e) eqn:He; [|discriminate].
      destruct (ui_raises b s e Hui He) as (-> & -> & ->).
      unfold bind, print_stderr, set_stderr, ret.
      cbn [self_scripts scripts_data stderr events].
      lazymatch goal with
      | |- place_controls _ _ _ ?i (mkWorld _ (_ ++ ?s1 :: _) ?err1 _) = _ =>
          specialize (IH (done ++ [s1]) i (mkWorld data ((done ++ [s1]) ++ rest) err1 ev)
                         Hstop eq_refl)
      end.
      rewrite length_app, Nat.add_1_r, <- app_assoc in IH.
      cbn [app length self_scripts scripts_data stderr events] in IH. rewrite IH.
      cbn [self_scripts scripts_data stderr events].
      rewrite Nat.add_0_r, <- !app_assoc. reflexivity.
Qed.

Lemma place_controls_all (b : bool) (l : list script)
    (inputs : list component) (w : world) :
  first_stop (ui_escape b) l = None ->
  self_scripts w = l ->
  place_controls b l 0 inputs w
  = (Ret (inputs ++ flat_map (controls_of b) l),
     mkWorld (scripts_data w) (laid_out b (length inputs) l)
             (stderr w ++ flat_map (ui_lines b) l) (events w)).
Proof. intros Hstop H. exact (place_controls_effect b l [] inputs w Hstop H). Qed.

Lemma update_nth_origin (k : nat) (f : script -> script) (l : list script) :
  (forall s, origin (f s) = origin s) ->
  map origin (update_nth k f l) = map origin l.
Proof.
  intros Hf. revert k. induction l as [|x l IH]; intros k; simpl.
  - destruct k; reflexivity.
  - destruct k; simpl; [now rewrite Hf | now rewrite IH].
Qed.

(** What the second loop keeps, however it ends. *)
Lemma place_controls_keeps (b : bool) (todo : list script) (k : nat)
    (inputs : list component) (w : world) :
  let w' := snd (place_controls b todo k inputs w) in
  scripts_data w' = scripts_data w
  /\ events w' = events w
  /\ map origin (self_scripts w') = map origin (self_scripts w)
  /\ exists lines, stderr w' = stderr w ++ lines.
Proof.
  cbv zeta. revert k inputs w. induction todo as [|s rest IH]; intros k inputs w.
  - simpl. repeat split. exists []. now rewrite app_nil_r.
  - cbn [place_controls]. unfold bind, set_script_attrs, wrap_call.
    destruct (m_ui (meths_of (cls s)) b) as [[controls|]|e].
    + unfold ret. cbn [fst snd].
      lazymatch goal with
      | |- context [place_controls b rest ?k1 ?i1 ?w1] =>
          destruct (IH k1 i1 w1) as (H1 & H2 & H3 & lines & H4)
      end.
      rewrite H1, H2, H3, H4. cbn [scripts_data events self_scripts stderr set_self_scripts].
      repeat split.
      * now rewrite !update_nth_origin by reflexivity.
      * now exists lines.
    + unfold ret. cbn [fst snd].
      lazymatch goal with
      | |- context [place_controls b rest ?k1 ?i1 ?w1] =>
          destruct (IH k1 i1 w1) as (H1 & H2 & H3 & lines & H4)
      end.
      rewrite H1, H2, H3, H4. cbn [scripts_data events self_scripts stderr set_self_scripts].
      repeat split.
      * now rewrite !update_nth_origin by reflexivity.
      * now exists lines.
    + destruct (is_exception e).
      * unfold bind, print_stderr, ret. cbn [fst snd].
        lazymatch goal with
        | |- context [place_controls b rest ?k1 ?i1 ?w1] =>
            destruct (IH k1 i1 w1) as (H1 & H2 & H3 & lines & H4)
        end.
        rewrite H1, H2, H3, H4.
        cbn [scripts_data events self_scripts stderr set_self_scripts set_stderr].
        repeat split.
        -- now rewrite !update_nth_origin by reflexivity.
        -- eexists. now rewrite <- !app_assoc.
      * unfold raise. cbn [fst snd scripts_data events self_scripts stderr set_self_scripts].
        repeat split.
        -- now rewrite !update_nth_origin by reflexivity.
        -- exists []. now rewrite app_nil_r.
Qed.

(** The second loop raises what the first [ui] that [wrap_call] lets
    through raises. *)
Lemma place_controls_stops (b : bool) (todo : list script) (k : nat)
    (inputs : list component) (w : world) (e : exn) :
  first_stop (ui_escape b) todo = Some e ->
  fst (place_controls b todo k inputs w) = Raise e.
Proof.
  revert k inputs w. induction todo as [|s rest IH]; intros k inputs w Hstop.
  - discriminate.
  - cbn [first_stop] in Hstop. unfold ui_escape at 1, escapes in Hstop.
    cbn [place_controls]. unfold bind, set_script_attrs, wrap_call.
    destruct (m_ui (meths_of (cls s)) b) as [[controls|]|x].
    + unfold ret. cbn [fst snd]. now apply IH.
    + unfold ret. cbn [fst snd]. now apply IH.
    + destruct (is_exception x).
      * unfold bind, print_stderr, ret. cbn [fst snd]. now apply IH.
      * inversion Hstop; subst. reflexivity.
Qed.

(** What [setup_ui] returns and leaves behind, from what its loops meet:
    an exception of a constructor or [show], then one of a [title] that
    [wrap_call] lets through, then one of a [ui]. *)
Lemma setup_ui_cases (b : bool) (w : world) :
  setup_ui b w
  = match snd (scan b (scripts_data w)) with
    | Some e => (Raise e, set_self_scripts (fun l => l ++ fst (scan b (scripts_data w))) w)
    | None =>
        let scripts := self_scripts w ++ fst (scan b (scripts_data w)) in
        match first_stop title_escape scripts with
        | Some e =>
            (Raise e,
             mkWorld (scripts_data w) scripts
                     (stderr w ++ flat_map title_lines (upto title_escape scripts))
                     (events w))
        | None =>
            match first_stop (ui_escape b) scripts with
            | Some e =>
                (Raise e,
                 snd (place_controls b scripts 0
                        [selector_dropdown b (map display_title scripts)]
                        (mkWorld (scripts_data w) scripts
                                 (stderr w ++ flat_map title_lines scripts) (events w))))
            | None =>
                (Ret (selector_dropdown b (map display_title scripts)
                      :: flat_map (controls_of b) scripts ++ [restraints_box b]),
                 mkWorld (scripts_data w) (laid_out b 1 scripts)
                         (stderr w ++ flat_map title_lines scripts
                                   ++ flat_map (ui_lines b) scripts)
                         (events w))
            end
        end
    end.
Proof.
  unfold setup_ui. unfold bind at 1. rewrite retain_all_effect.
  destruct (snd (scan b (scripts_data w))) as [e|]; [reflexivity|].
  unfold bind at 1. unfold get_self_scripts at 1.
  cbn [self_scripts set_self_scripts].
  unfold bind at 1. rewrite titles_of_effect. cbv zeta.
  destruct (first_stop title_escape (self_scripts w ++ fst (scan b (scripts_data w))))
    as [e|] eqn:Htitle; [reflexivity|].
  rewrite (upto_all _ _ Htitle).
  unfold bind at 1.
  destruct (first_stop (ui_escape b) (self_scripts w ++ fst (scan b (scripts_data w))))
    as [e|] eqn:Hui.
  - lazymatch goal with
    | |- context [place_controls b ?l 0 ?i ?w0] =>
        pose proof (place_controls_stops b l 0 i w0 e Hui) as Hraise;
        rewrite (surjective_pairing (place_controls b l 0 i w0)), Hraise
    end.
    reflexivity.
  - lazymatch goal with
    | |- context [place_controls b ?l 0 ?i ?w0] =>
        rewrite (place_controls_all b l i w0 Hui eq_refl)
    end.
    unfold ret. cbn [app length set_stderr scripts_data self_scripts stderr events].
    now rewrite <- app_assoc.
Qed.

(** The build when nothing stops it. *)
Lemma setup_ui_effect (b : bool) (w : world) :
  snd (scan b (scripts_data w)) = None ->
  first_stop title_escape (self_scripts w ++ fst (scan b (scripts_data w))) = None ->
  first_stop (ui_escape b) (self_scripts w ++ fst (scan b (scripts_data w))) = None ->
  setup_ui b w
  = (let scripts := self_scripts w ++ fst (scan b (scripts_data w)) in
     (Ret (selector_dropdown b (map display_title scripts)
           :: flat_map (controls_of b) scripts ++ [restraints_box b]),
      mkWorld (scripts_data w) (laid_out b 1 scripts)
              (stderr w ++ flat_map title_lines scripts ++ flat_map (ui_lines b) scripts)
              (events w))).
Proof. intros H1 H2 H3. rewrite setup_ui_cases, H1. cbv zeta. now rewrite H2, H3. Qed.

(** The build when a constructor or [show] raises. *)
Lemma setup_ui_scan_fails (b : bool) (w : world) (e : exn) :
  snd (scan b (scripts_data w)) = Some e ->
  setup_ui b w
  = (Raise e, set_self_scripts (fun l => l ++ fst (scan b (scripts_data w))) w).
Proof. intros H. now rewrite setup_ui_cases, H. Qed.

Lemma laid_out_length (b : bool) (start : nat) (l : list script) :
  length (laid_out b start l) = length l.
Proof. revert start. induction l; intros; simpl; [reflexivity | now rewrite IHl]. Qed.

Lemma laid_out_origin (b : bool) (start : nat) (l : list script) :
  map origin (laid_out b start l) = map origin l.
Proof. revert start. induction l; intros; simpl; [reflexivity | now rewrite IHl]. Qed.

Lemma laid_out_ctrl_count (b : bool) (start : nat) (l : list script) :
  map (ctrl_count b) (laid_out b start l) = map (ctrl_count b) l.
Proof. revert start. induction l; intros; simpl; [reflexivity | now rewrite IHl]. Qed.

Lemma laid_out_controls (b : bool) (start : nat) (l : list script) :
  flat_map (controls_of b) (laid_out b start l) = flat_map (controls_of b) l.
Proof. revert start. induction l; intros; simpl; [reflexivity | now rewrite IHl]. Qed.

Lemma laid_out_titles (b : bool) (start : nat) (l : list script) :
  map display_title (laid_out b start l) = map display_title l.
Proof. revert start. induction l; intros; simpl; [reflexivity | now rewrite IHl]. Qed.

Lemma laid_out_nth (b : bool) (l : list script) (start k : nat) (s' : script) :
  nth_error (laid_out b start l) k = Some s' ->
  exists s, nth_error l k = Some s
            /\ cls s' = cls s /\ filename s' = filename s
            /\ args_from s' = Some (start + list_sum (map (ctrl_count b) (firstn k l)))
            /\ args_to s' = Some (start + list_sum (map (ctrl_count b) (firstn k l))
                                  + ctrl_count b s).
Proof.
  revert start k. induction l as [|x l IH]; intros start k H.
  - destruct k; discriminate.
  - destruct k as [|k]; simpl in H.
    + inversion H; subst; clear H. exists x. simpl. rewrite Nat.add_0_r. auto.
    + destruct (IH _ _ H) as (s & Hs & Hc & Hf & Ha & Hb).
      exists s. simpl. repeat split; try assumption.
      * rewrite Ha. f_equal. lia.
      * rewrite Hb. f_equal. lia.
Qed.

Lemma controls_length (b : bool) (l : list script) :
  length (flat_map (controls_of b) l) = list_sum (map (ctrl_count b) l).
Proof.
  induction l as [|s l IH]; simpl; [reflexivity|].
  rewrite length_app, IH. f_equal. unfold controls_of, ctrl_count.
  destruct (m_ui (meths_of (cls s)) b) as [[controls|]|e]; simpl; auto using length_map.
Qed.

Lemma scan_origins (b : bool) (data : list (pyclass * string)) :
  snd (scan b data) = None ->
  map origin (fst (scan b data)) = filter (shown_on b) data.
Proof.
  induction data as [|[c path] rest IH]; simpl; [reflexivity|].
  unfold shown_on at 1. simpl.
  destruct (m_init (meths_of c)) as [[]|e]; simpl; [|discriminate].
  destruct (m_show (meths_of c) b) as [shown|e]; simpl; [|discriminate].
  destruct (scan b rest) as [l stop]; simpl in *. intros ->.
  destruct shown; simpl; now rewrite IH.
Qed.

(** A build that returns leaves [self.scripts] laid out from slot 1. *)
(** A build that returns leaves [self.scripts] laid out from slot 1. *)
Lemma setup_ui_returns (b : bool) (w w' : world) (inputs : list component) :
  setup_ui b w = (Ret inputs, w') ->
  exists scripts,
    snd (scan b (scripts_data w)) = None
    /\ scripts = self_scripts w ++ fst (scan b (scripts_data w))
    /\ self_scripts w' = laid_out b 1 scripts
    /\ inputs = selector_dropdown b (map display_title scripts)
                :: flat_map (controls_of b) scripts ++ [restraints_box b]
    /\ scripts_data w' = scripts_data w /\ events w' = events w.
Proof.
  rewrite setup_ui_cases. destruct (snd (scan b (scripts_data w))); [discriminate|].
  cbv zeta.
  destruct (first_stop title_escape _); [discriminate|].
  destruct (first_stop (ui_escape b) _); [discriminate|].
  intros H. inversion H; subst; clear H. eexists. repeat split; reflexivity.
Qed.

(** In a build that returns, every exception of a [title] or a [ui] was
    one [wrap_call] catches, and stderr has their lines. *)
Lemma setup_ui_returns_calls (b : bool) (w w' : world) (inputs : list component) :
  setup_ui b w = (Ret inputs, w') ->
  let scripts := self_scripts w ++ fst (scan b (scripts_data w)) in
  first_stop title_escape scripts = None
  /\ first_stop (ui_escape b) scripts = None
  /\ stderr w'
     = stderr w ++ flat_map title_lines scripts ++ flat_map (ui_lines b) scripts.
Proof.
  rewrite setup_ui_cases. destruct (snd (scan b (scripts_data w))); [discriminate|].
  cbv zeta.
  destruct (first_stop title_escape _); [discriminate|].
  destruct (first_stop (ui_escape b) _); [discriminate|].
  intros H. inversion H; subst; clear H. repeat split; reflexivity.
Qed.

(** C1. When [setup_ui] returns, the list it returns has one slot for
    the dropdown, then the controls of the retained scripts, then one
    slot for the restraints textbox: its length is 1 plus the sum of the
    control counts plus 1.  The k-th retained script has [args_from] at
    1 plus the counts of the scripts before it and [args_to] at
    [args_from] plus its own count, so that the ranges have the width of
    the script's controls, start at 1 and follow one another without
    gap or overlap.  The retained scripts are those already in
    [self.scripts] followed by the descriptors of [scripts_data] whose
    [show] returned true, in the order of [scripts_data]. *)
Theorem setup_ui_layout (is_img2img : bool) (w w' : world) (inputs : list component) :
  setup_ui is_img2img w = (Ret inputs, w') ->
  let scripts := self_scripts w' in
  length inputs = 1 + list_sum (map (ctrl_count is_img2img) scripts) + 1
  /\ (exists titles,
         inputs = selector_dropdown is_img2img titles
                  :: flat_map (controls_of is_img2img) scripts
                  ++ [restraints_box is_img2img])
  /\ map origin scripts
     = map origin (self_scripts w) ++ filter (shown_on is_img2img) (scripts_data w)
  /\ forall k s,
       nth_error scripts k = Some s ->
       let before := list_sum (map (ctrl_count is_img2img) (firstn k scripts)) in
       args_from s = Some (1 + before)
       /\ args_to s = Some (1 + before + ctrl_count is_img2img s).
Proof.
  intros H. apply setup_ui_returns in H.
  destruct H as (scripts & Hscan & Hscripts & Hself & Hinputs & _ & _).
  cbv zeta. rewrite Hself, Hinputs. repeat split.
  - simpl. rewrite length_app, controls_length, laid_out_ctrl_count. simpl. lia.
  - exists (map display_title scripts). now rewrite laid_out_controls.
  - rewrite laid_out_origin, Hscripts, map_app. f_equal. now apply scan_origins.
  - destruct (laid_out_nth _ _ _ _ _ H) as (s0 & Hs0 & Hc & Hf & Ha & Hb).
    rewrite Ha. f_equal. f_equal.
    rewrite <- !firstn_map, laid_out_ctrl_count. reflexivity.
  - destruct (laid_out_nth _ _ _ _ _ H) as (s0 & Hs0 & Hc & Hf & Ha & Hb).
    rewrite Hb. f_equal.
    rewrite <- !firstn_map, laid_out_ctrl_count.
    unfold ctrl_count. now rewrite Hc.
Qed.

Lemma setup_ui_layout_witness :
  let scripts := self_scripts Samples.demo_session in
  length Samples.demo_inputs = 1 + list_sum (map (ctrl_count true) scripts) + 1
  /\ (exists titles,
         Samples.demo_inputs
         = selector_dropdown true titles
           :: flat_map (controls_of true) scripts ++ [restraints_box true])
  /\ map origin scripts
     = map origin (self_scripts Samples.demo_registry)
       ++ filter (shown_on true) (scripts_data Samples.demo_registry)
  /\ forall k s,
       nth_error scripts k = Some s ->
       let before := list_sum (map (ctrl_count true) (firstn k scripts)) in
       args_from s = Some (1 + before)
       /\ args_to s = Some (1 + before + ctrl_count true s).
Proof.
  apply (setup_ui_layout true Samples.demo_registry Samples.demo_session
           Samples.demo_inputs).
  reflexivity.
Defined.

Lemma laid_out_nth_of (b : bool) (l : list script) (start k : nat) (s : script) :
  nth_error l k = Some s ->
  nth_error (laid_out b start l) k
  = Some (mkScript (cls s) (filename s)
            (Some (start + list_sum (map (ctrl_count b) (firstn k l))))
            (Some (start + list_sum (map (ctrl_count b) (firstn k l)) + ctrl_count b s))).
Proof.
  revert start k. induction l as [|x l IH]; intros start k H.
  - destruct k; discriminate.
  - destruct k as [|k]; simpl in H.
    + inversion H; subst. simpl. now rewrite Nat.add_0_r.
    + simpl. rewrite (IH _ _ H). do 3 f_equal; lia.
Qed.

(** C7, as the code has it.  When [setup_ui] returns, the choices of the
    dropdown are "None" followed by one title per retained script, in
    order.  The title is what [title()] returned when that is a
    non-empty string; it is the file name followed by " [error]" when
    [title()] raised, and also when it returned [None] or the empty
    string. *)
Theorem setup_ui_titles (is_img2img : bool) (w w' : world) (inputs : list component) :
  setup_ui is_img2img w = (Ret inputs, w') ->
  exists titles rest,
    inputs = selector_dropdown is_img2img titles :: rest
    /\ length titles = length (self_scripts w')
    /\ forall k s,
         nth_error (self_scripts w') k = Some s ->
         exists t,
           nth_error titles k = Some t
           /\ match m_title (meths_of (cls s)) with
              | Ret (Some r) =>
                  t = if String.eqb r EmptyString then (filename s ++ " [error]")%string else r
              | Ret None => t = (filename s ++ " [error]")%string
              | Raise _ => t = (filename s ++ " [error]")%string
              end.
Proof.
  intros H. apply setup_ui_returns in H.
  destruct H as (scripts & Hscan & Hscripts & Hself & Hinputs & _ & _).
  exists (map display_title scripts), (flat_map (controls_of is_img2img) scripts
                                       ++ [restraints_box is_img2img]).
  rewrite Hself. repeat split.
  - assumption.
  - now rewrite length_map, laid_out_length.
  - intros k s Hk. destruct (laid_out_nth _ _ _ _ _ Hk) as (s0 & Hs0 & Hc & Hf & _).
    exists (display_title s0). split.
    + now rewrite nth_error_map, Hs0.
    + rewrite Hc, Hf. unfold display_title, fallback_title, py_or.
      destruct (m_title (meths_of (cls s0))) as [[r|]|e]; reflexivity.
Qed.

Lemma setup_ui_titles_witness :
  exists titles rest,
    Samples.demo_inputs = selector_dropdown true titles :: rest
    /\ length titles = length (self_scripts Samples.demo_session)
    /\ forall k s,
         nth_error (self_scripts Samples.demo_session) k = Some s ->
         exists t,
           nth_error titles k = Some t
           /\ match m_title (meths_of (cls s)) with
              | Ret (Some r) =>
                  t = if String.eqb r EmptyString then (filename s ++ " [error]")%string else r
              | Ret None => t = (filename s ++ " [error]")%string
              | Raise _ => t = (filename s ++ " [error]")%string
              end.
Proof.
  apply (setup_ui_titles true Samples.demo_registry Samples.demo_session
           Samples.demo_inputs).
  reflexivity.
Defined.

(** The title call of [Untitled] returns the empty string and does not
    raise; the dropdown nevertheless shows the fallback label for it,
    not the empty string. *)
Lemma empty_title_is_replaced :
  m_title (meths_of Samples.Untitled) = Ret (Some EmptyString)
  /\ fst (setup_ui false Samples.untitled_registry)
     = Ret [selector_dropdown false ["scripts/untitled.py [error]"];
            restraints_box false]
  /\ "scripts/untitled.py [error]" <> EmptyString.
Proof. repeat split. discriminate. Qed.

Lemma calls_caught (b : bool) (l : list script) :
  (forall s, In s l ->
     catchable (m_title (meths_of (cls s))) /\ catchable (m_ui (meths_of (cls s)) b)) ->
  first_stop title_escape l = None /\ first_stop (ui_escape b) l = None.
Proof.
  intros H. split; apply first_stop_none, Forall_forall; intros s Hs;
    apply escapes_none, (H s Hs).
Qed.

(** C8, as the code has it.  [ui] is called in the second loop only, so
    a build in which the [ui] of a retained script raises is one whose
    first loop has completed.  When in such a build every exception
    that a [title] or a [ui] of a retained script raises is an instance
    of [Exception], that of the script at hand included, [setup_ui]
    returns: no exception leaves it.  The script keeps its place among
    the retained scripts and its title among the choices of the
    dropdown, and its range is empty. *)
Theorem setup_ui_survives_failing_ui (is_img2img : bool) (w w1 : world)
    (k : nat) (s : script) (e : exn) :
  retain_all is_img2img w = (Ret tt, w1) ->
  (forall s', In s' (self_scripts w1) ->
     catchable (m_title (meths_of (cls s')))
     /\ catchable (m_ui (meths_of (cls s')) is_img2img)) ->
  nth_error (self_scripts w1) k = Some s ->
  m_ui (meths_of (cls s)) is_img2img = Raise e ->
  exists titles rest w' s' n,
    setup_ui is_img2img w = (Ret (selector_dropdown is_img2img titles :: rest), w')
    /\ length titles = length (self_scripts w')
    /\ nth_error titles k = Some (display_title s)
    /\ nth_error (self_scripts w') k = Some s'
    /\ origin s' = origin s
    /\ args_from s' = Some n /\ args_to s' = Some n.
Proof.
  intros Hloop Hcalls Hk Hui. rewrite retain_all_effect in Hloop.
  destruct (snd (scan is_img2img (scripts_data w))) as [e'|] eqn:Hscan; [discriminate|].
  inversion Hloop; subst; clear Hloop. cbn [self_scripts set_self_scripts] in Hk, Hcalls.
  assert (Hexc : is_exception e = true).
  { apply (proj2 (Hcalls s (nth_error_In _ _ Hk)) e Hui). }
  destruct (calls_caught _ _ Hcalls) as [Htitle Hstop].
  rewrite (setup_ui_effect is_img2img w Hscan Htitle Hstop). cbv zeta.
  do 5 eexists. split; [reflexivity|]. cbn [self_scripts].
  split; [now rewrite length_map, laid_out_length|].
  split; [now rewrite nth_error_map, Hk|].
  split; [apply (laid_out_nth_of _ _ _ _ _ Hk)|].
  split; [reflexivity|]. cbn [args_from args_to]. split; [reflexivity|].
  destruct (ui_raises _ _ _ Hui Hexc) as (_ & -> & _). now rewrite Nat.add_0_r.
Qed.

Lemma setup_ui_survives_failing_ui_witness :
  exists titles rest w' s' n,
    setup_ui true Samples.demo_registry
    = (Ret (selector_dropdown true titles :: rest), w')
    /\ length titles = length (self_scripts w')
    /\ nth_error titles 1
       = Some (display_title (mkScript Samples.BrokenUi "scripts/matrix.py" None None))
    /\ nth_error (self_scripts w') 1 = Some s'
    /\ origin s' = origin (mkScript Samples.BrokenUi "scripts/matrix.py" None None)
    /\ args_from s' = Some n /\ args_to s' = Some n.
Proof.
  apply (setup_ui_survives_failing_ui true Samples.demo_registry
           (snd (retain_all true Samples.demo_registry)) 1
           (mkScript Samples.BrokenUi "scripts/matrix.py" None None)
           (RuntimeError "ui")); try reflexivity.
  intros s' Hs'. simpl in Hs'.
  destruct Hs' as [<- | [<- | [<- | [<- | []]]]];
    split; intros x Hx; simpl in Hx; inversion Hx; reflexivity.
Defined.

(** The first loop completes and the [ui] of the second retained script
    raises, with [SystemExit]: [wrap_call] does not catch it and it
    leaves [setup_ui]. *)
Lemma setup_ui_left_by_system_exit :
  retain_all false Fixtures.exit_ui_registry
  = (Ret tt,
     mkWorld (scripts_data Fixtures.exit_ui_registry)
             [mkScript Samples.Upscale "scripts/upscale.py" None None;
              mkScript Fixtures.ExitUi "scripts/quit.py" None None]
             [] [])
  /\ m_ui (meths_of Fixtures.ExitUi) false = Raise SystemExit
  /\ fst (setup_ui false Fixtures.exit_ui_registry) = Raise SystemExit.
Proof. repeat split. Qed.

(** C6, on a registry whose first script raises in [show]: [show] is
    called outside [wrap_call], so the exception leaves [setup_ui]; no
    script is retained, not even the one after it, and nothing is
    written to stderr. *)
Theorem setup_ui_aborts_when_show_raises :
  m_show (meths_of Samples.BrokenShow) false = Raise (RuntimeError "show")
  /\ setup_ui false Samples.picky_registry
     = (Raise (RuntimeError "show"), Samples.picky_registry).
Proof. split; reflexivity. Qed.

(** ** Building twice *)

Lemma scan_same (b : bool) (d1 d2 : list (pyclass * string)) :
  Forall2 (same_for_build b) d1 d2 ->
  snd (scan b d1) = snd (scan b d2)
  /\ Forall2 (fun s1 s2 =>
                alike b s1 s2
                /\ m_ui (meths_of (cls s1)) b = m_ui (meths_of (cls s2)) b)
             (fst (scan b d1)) (fst (scan b d2)).
Proof.
  induction 1 as [|[c1 p1] [c2 p2] r1 r2 Hsame _ IH]; simpl.
  - split; [reflexivity | constructor].
  - destruct Hsame as (Hcid & Hpath & Hinit & Hshow & Hui). simpl in *. subst p2.
    rewrite <- Hinit, <- Hshow.
    destruct (m_init (meths_of c1)) as [[]|e]; simpl; [|split; [reflexivity | constructor]].
    destruct (m_show (meths_of c1) b) as [shown|e]; simpl;
      [|split; [reflexivity | constructor]].
    destruct (scan b r1) as [l1 stop1], (scan b r2) as [l2 stop2]. simpl in *.
    destruct IH as [Hstop Hl]. split; [assumption|].
    destruct shown; [constructor|]; try assumption.
    split; [|exact Hui]. unfold alike, ctrl_count. simpl. now rewrite Hui.
Qed.

Lemma scan_from_registry (b : bool) (data : list (pyclass * string)) (s : script) :
  In s (fst (scan b data)) -> exists d, In d data /\ cls s = fst d.
Proof.
  induction data as [|[c path] rest IH]; simpl; [contradiction|].
  destruct (m_init (meths_of c)) as [[]|e]; simpl; [|contradiction].
  destruct (m_show (meths_of c) b) as [shown|e]; simpl; [|contradiction].
  destruct (scan b rest) as [l stop]; simpl in *.
  destruct shown; simpl.
  - intros [<- | Hin].
    + exists (c, path). split; [now left | reflexivity].
    + destruct (IH Hin) as (d & Hd & Hc). exists d. split; [now right | assumption].
  - intros Hin. destruct (IH Hin) as (d & Hd & Hc). exists d.
    split; [now right | assumption].
Qed.

Lemma same_ui_stops (b : bool) (l1 l2 : list script) :
  Forall2 (fun s1 s2 =>
             alike b s1 s2 /\ m_ui (meths_of (cls s1)) b = m_ui (meths_of (cls s2)) b)
          l1 l2 ->
  first_stop (ui_escape b) l1 = first_stop (ui_escape b) l2
  /\ Forall2 (alike b) l1 l2.
Proof.
  induction 1 as [|s1 s2 r1 r2 [Halike Hui] _ [IH1 IH2]]; simpl.
  - split; [reflexivity | constructor].
  - unfold ui_escape at 1 3. rewrite Hui.
    destruct (escapes (m_ui (meths_of (cls s2)) b)); split;
      try reflexivity; try assumption; now constructor.
Qed.

Lemma laid_out_alike (b : bool) (l1 l2 : list script) :
  Forall2 (alike b) l1 l2 ->
  forall start, map slot (laid_out b start l1) = map slot (laid_out b start l2).
Proof.
  induction 1 as [|s1 s2 r1 r2 (Hcid & Hfile & Hcount) _ IH]; intros start; simpl.
  - reflexivity.
  - rewrite Hcount, IH. unfold slot. simpl. now rewrite Hcid, Hfile.
Qed.

Lemma alike_counts (b : bool) (l1 l2 : list script) :
  Forall2 (alike b) l1 l2 -> map (ctrl_count b) l1 = map (ctrl_count b) l2.
Proof.
  induction 1 as [|s1 s2 r1 r2 (_ & _ & Hcount) _ IH]; simpl; [reflexivity|].
  now rewrite Hcount, IH.
Qed.

(** C9, as the code has it.  Two builds for the same tab, each on a
    runner whose [self.scripts] is still empty, over registries that hold
    the same class objects and paths in the same order and whose
    constructors, [show] and [ui] behave the same, and where no [title]
    of the second raises outside [Exception]: when the first returns, so
    does the second, and both leave the same retained scripts in the
    same order with the same [args_from] and [args_to], and return
    lists of the same length. *)
Theorem setup_ui_repeatable (is_img2img : bool) (wA wB wA' : world)
    (inputsA : list component) :
  self_scripts wA = [] ->
  self_scripts wB = [] ->
  Forall2 (same_for_build is_img2img) (scripts_data wA) (scripts_data wB) ->
  Forall (fun d => catchable (m_title (meths_of (fst d)))) (scripts_data wB) ->
  setup_ui is_img2img wA = (Ret inputsA, wA') ->
  exists inputsB wB',
    setup_ui is_img2img wB = (Ret inputsB, wB')
    /\ map slot (self_scripts wA') = map slot (self_scripts wB')
    /\ length inputsA = length inputsB.
Proof.
  intros HA HB Hsame Htitles Hbuild.
  destruct (setup_ui_returns_calls _ _ _ _ Hbuild) as (_ & HuiA & _).
  apply setup_ui_returns in Hbuild.
  destruct Hbuild as (scripts & Hscan & Hscripts & Hself & Hinputs & _ & _).
  destruct (scan_same _ _ _ Hsame) as [Hstop Hl].
  rewrite HA in HuiA. cbn [app] in HuiA.
  destruct (same_ui_stops _ _ _ Hl) as [Hui Halike].
  assert (HtitleB : first_stop title_escape
                      (self_scripts wB ++ fst (scan is_img2img (scripts_data wB))) = None).
  { rewrite HB. cbn [app]. apply first_stop_none, Forall_forall. intros s Hs.
    destruct (scan_from_registry _ _ _ Hs) as (d & Hd & Hc).
    unfold title_escape. rewrite Hc. apply escapes_none.
    rewrite Forall_forall in Htitles. now apply Htitles. }
  assert (HuiB : first_stop (ui_escape is_img2img)
                   (self_scripts wB ++ fst (scan is_img2img (scripts_data wB))) = None).
  { rewrite HB. cbn [app]. now rewrite <- Hui. }
  rewrite Hscan in Hstop. symmetry in Hstop.
  rewrite (setup_ui_effect is_img2img wB Hstop HtitleB HuiB). cbv zeta.
  do 2 eexists. split; [reflexivity|]. cbn [self_scripts].
  rewrite Hself, Hinputs, Hscripts, HA, HB. cbn [app].
  split.
  - now apply laid_out_alike.
  - cbn [length]. rewrite !length_app, !controls_length.
    now rewrite (alike_counts _ _ _ Halike).
Qed.

Lemma setup_ui_repeatable_witness :
  exists inputsB wB',
    setup_ui true Samples.demo_registry_later = (Ret inputsB, wB')
    /\ map slot (self_scripts Samples.demo_session) = map slot (self_scripts wB')
    /\ length Samples.demo_inputs = length inputsB.
Proof.
  apply (setup_ui_repeatable true Samples.demo_registry Samples.demo_registry_later
           Samples.demo_session Samples.demo_inputs).
  - reflexivity.
  - reflexivity.
  - repeat constructor.
  - repeat constructor; intros x Hx; simpl in Hx; inversion Hx; reflexivity.
  - reflexivity.
Defined.

(** Calling [setup_ui] a second time on the same runner: the registry is
    the same, but [self.scripts] still holds the instance of the first
    call, so the second call retains two instances where the first
    retained one, and returns a longer list. *)
Lemma setup_ui_again_on_same_runner_differs :
  let w1 := snd (setup_ui false Samples.upscale_registry) in
  let w2 := snd (setup_ui false w1) in
  scripts_data w1 = scripts_data Samples.upscale_registry
  /\ map slot (self_scripts w1) = [(1, "scripts/upscale.py", Some 1, Some 3)]
  /\ map slot (self_scripts w2)
     = [(1, "scripts/upscale.py", Some 1, Some 3);
        (1, "scripts/upscale.py", Some 3, Some 5)]
  /\ map slot (self_scripts w1) <> map slot (self_scripts w2)
  /\ option_map (@length component)
       (match fst (setup_ui false Samples.upscale_registry) with
        | Ret i => Some i | Raise _ => None end) = Some 4
  /\ option_map (@length component)
       (match fst (setup_ui false w1) with Ret i => Some i | Raise _ => None end)
     = Some 6.
Proof. repeat split. discriminate. Qed.

(** ** Indexing and slicing *)

Lemma py_getitem_head {A} (x : A) (l : list A) : py_getitem (x :: l) 0 = Ret x.
Proof.
  unfold py_getitem. cbn [Z.ltb Z.compare Z.to_nat nth_error].
  replace (0 <=? 0)%Z with true by reflexivity.
  replace (0 <? Z.of_nat (length (x :: l)))%Z with true; [reflexivity|].
  symmetry. apply Z.ltb_lt. simpl. lia.
Qed.

Lemma py_getitem_selected {A} (l : list A) (i : Z) :
  (1 <= i <= Z.of_nat (length l))%Z ->
  exists x, nth_error l (Z.to_nat (i - 1)) = Some x /\ py_getitem l (i - 1) = Ret x.
Proof.
  intros Hi. unfold py_getitem.
  replace (i - 1 <? 0)%Z with false by (symmetry; apply Z.ltb_ge; lia).
  replace ((0 <=? i - 1) && (i - 1 <? Z.of_nat (length l)))%Z with true
    by (symmetry; apply andb_true_iff; split; [apply Z.leb_le | apply Z.ltb_lt]; lia).
  destruct (nth_error l (Z.to_nat (i - 1))) as [x|] eqn:Hx.
  - now exists x.
  - apply nth_error_None in Hx. lia.
Qed.

Lemma py_getitem_beyond {A} (l : list A) (i : Z) :
  i <> 0%Z ->
  (Z.of_nat (length l) < i \/ i <= - Z.of_nat (length l))%Z ->
  py_getitem l (i - 1) = Raise IndexError.
Proof.
  intros Hnz Hout. unfold py_getitem.
  destruct (i - 1 <? 0)%Z eqn:Hneg.
  - apply Z.ltb_lt in Hneg.
    replace (0 <=? i - 1 + Z.of_nat (length l))%Z with false
      by (symmetry; apply Z.leb_gt; lia).
    reflexivity.
  - apply Z.ltb_ge in Hneg.
    replace (i - 1 <? Z.of_nat (length l))%Z with false
      by (symmetry; apply Z.ltb_ge; lia).
    now rewrite andb_false_r.
Qed.

Lemma py_slice_within {A} (l : list A) (a b : nat) :
  a <= b <= length l ->
  length (py_slice l (Some a) (Some b)) = b - a
  /\ forall j, j < b - a -> nth_error (py_slice l (Some a) (Some b)) j = nth_error l (a + j).
Proof.
  intros Hab. unfold py_slice. split.
  - rewrite length_firstn, length_skipn. lia.
  - intros j Hj. rewrite nth_error_firstn.
    replace (j <? b - a)%nat with true by (symmetry; apply Nat.ltb_lt; lia).
    apply nth_error_skipn.
Qed.

Lemma shows_ranged (a b : nat) (positions : list nat) :
  shows (Some a) (Some b) positions
  = Ret (map (fun j => gr_show ((j =? 0)%nat || ((a <=? j)%nat && (j <? b)%nat))) positions).
Proof.
  induction positions as [|j rest IH]; simpl; [reflexivity|].
  rewrite IH. destruct (j =? 0)%nat; simpl; [reflexivity|].
  destruct (a <=? j)%nat; reflexivity.
Qed.

(** ** Dispatch *)

(** C2. With selector 0, [run] returns [None] and leaves the world as it
    is: no script is run and the progress counter is not cleared.  With
    a selector [i] between 1 and the number of retained scripts, [run]
    calls the [run] of the [i]-th retained script, once, with the
    processing context and the slice of the argument vector between the
    script's [args_from] and [args_to]; when that call returns, the
    counter is cleared once and the result is handed back, and when it
    raises, the exception leaves [run] and the counter is not cleared.
    On a vector that reaches [args_to], the slice has
    [args_to - args_from] elements, the values of the script's controls
    in their order. *)
Theorem run_dispatches_selected_script
    (w : world) (p : StableDiffusionProcessing) (rest : list pyval) :
  run p (PyInt 0 :: rest) w = (Ret None, w)
  /\ forall i : Z,
       (1 <= i <= Z.of_nat (length (self_scripts w)))%Z ->
       exists s,
         nth_error (self_scripts w) (Z.to_nat (i - 1)) = Some s
         /\ (let full_args := PyInt i :: rest in
             let script_args := py_slice full_args (args_from s) (args_to s) in
             run p full_args w
             = match m_run (meths_of (cls s)) p script_args with
               | Ret processed =>
                   (Ret processed,
                    set_events (fun l => l ++ [RunCalled s p script_args; TqdmClear]) w)
               | Raise e =>
                   (Raise e, set_events (fun l => l ++ [RunCalled s p script_args]) w)
               end)
         /\ forall a b,
              args_from s = Some a -> args_to s = Some b ->
              a <= b <= length (PyInt i :: rest) ->
              length (py_slice (PyInt i :: rest) (args_from s) (args_to s)) = b - a
              /\ forall j, j < b - a ->
                   nth_error (py_slice (PyInt i :: rest) (args_from s) (args_to s)) j
                   = nth_error (PyInt i :: rest) (a + j).
Proof.
  split.
  - unfold run, bind, lift. rewrite py_getitem_head. reflexivity.
  - intros i Hi. destruct (py_getitem_selected _ _ Hi) as (s & Hnth & Hget).
    exists s. split; [assumption|]. split.
    + cbv zeta. unfold run, bind, lift. rewrite py_getitem_head.
      cbn [py_eq_zero py_sub_one].
      replace (i =? 0)%Z with false by (symmetry; apply Z.eqb_neq; lia).
      unfold get_self_scripts. rewrite Hget. unfold call_run, tqdm_clear.
      destruct (m_run (meths_of (cls s)) p _) as [processed|e].
      * unfold ret, set_events. cbn. now rewrite <- app_assoc.
      * reflexivity.
    + intros a b Ha Hb Hab. rewrite Ha, Hb. now apply py_slice_within.
Qed.

(** C5, as the code has it.  A selector that is not 0 and is greater
    than the number of retained scripts, or at most its negation, makes
    [run] raise [IndexError]; no script is run and the world is left as
    it is. *)
Theorem run_rejects_selector_beyond_scripts
    (w : world) (p : StableDiffusionProcessing) (i : Z) (rest : list pyval) :
  i <> 0%Z ->
  (Z.of_nat (length (self_scripts w)) < i \/ i <= - Z.of_nat (length (self_scripts w)))%Z ->
  run p (PyInt i :: rest) w = (Raise IndexError, w).
Proof.
  intros Hnz Hout. unfold run, bind, lift. rewrite py_getitem_head.
  cbn [py_eq_zero py_sub_one].
  replace (i =? 0)%Z with false by (symmetry; now apply Z.eqb_neq).
  unfold get_self_scripts. now rewrite py_getitem_beyond.
Qed.

Lemma run_dispatches_selected_script_witness :
  run Samples.p0 (PyInt 0 :: Samples.control_values) Samples.demo_session
  = (Ret None, Samples.demo_session)
  /\ exists s,
       nth_error (self_scripts Samples.demo_session) (Z.to_nat (1 - 1)) = Some s
       /\ (let full_args := PyInt 1 :: Samples.control_values in
           let script_args := py_slice full_args (args_from s) (args_to s) in
           run Samples.p0 full_args Samples.demo_session
           = match m_run (meths_of (cls s)) Samples.p0 script_args with
             | Ret processed =>
                 (Ret processed,
                  set_events (fun l => l ++ [RunCalled s Samples.p0 script_args; TqdmClear])
                             Samples.demo_session)
             | Raise e =>
                 (Raise e,
                  set_events (fun l => l ++ [RunCalled s Samples.p0 script_args])
                             Samples.demo_session)
             end)
       /\ forall a b,
            args_from s = Some a -> args_to s = Some b ->
            a <= b <= length (PyInt 1 :: Samples.control_values) ->
            length (py_slice (PyInt 1 :: Samples.control_values) (args_from s) (args_to s))
            = b - a
            /\ forall j, j < b - a ->
                 nth_error (py_slice (PyInt 1 :: Samples.control_values)
                                     (args_from s) (args_to s)) j
                 = nth_error (PyInt 1 :: Samples.control_values) (a + j).
Proof.
  split.
  - apply (run_dispatches_selected_script Samples.demo_session Samples.p0
             Samples.control_values).
  - apply (proj2 (run_dispatches_selected_script Samples.demo_session Samples.p0
                    Samples.control_values) 1%Z).
    simpl. lia.
Defined.

(** What the dispatch of the sample session does for selector 1. *)
Example run_upscale :
  run Samples.p0 (PyInt 1 :: Samples.control_values) Samples.demo_session
  = (Ret (Some (ProcessedImages 2)),
     set_events
       (fun l => l ++ [RunCalled (mkScript Samples.Upscale "scripts/upscale.py"
                                    (Some 1) (Some 3))
                         Samples.p0 [PyStr "2"; PyStr "64"];
                       TqdmClear])
       Samples.demo_session).
Proof. reflexivity. Qed.

Lemma run_rejects_selector_beyond_scripts_witness :
  run Samples.p0 (PyInt 5 :: Samples.control_values) Samples.demo_session
  = (Raise IndexError, Samples.demo_session).
Proof.
  apply (run_rejects_selector_beyond_scripts Samples.demo_session Samples.p0 5%Z
           Samples.control_values).
  - discriminate.
  - left. simpl. lia.
Defined.

(** The sample session retains four scripts.  The selector -1 is not 0
    and lies outside 1..4, yet [run] does not raise: the index -2 counts
    from the end of [self.scripts], the third script is run with its
    slice and the progress counter is cleared. *)
Lemma run_negative_selector_runs_a_script :
  length (self_scripts Samples.demo_session) = 4
  /\ (-1 <> 0)%Z
  /\ ~ (1 <= -1 <= 4)%Z
  /\ run Samples.p0 (PyInt (-1) :: Samples.control_values) Samples.demo_session
     = (Ret None,
        set_events
          (fun l => l ++ [RunCalled (mkScript Samples.Loopback "scripts/loopback.py"
                                       (Some 3) (Some 4))
                            Samples.p0 [PyInt 3];
                          TqdmClear])
          Samples.demo_session)
  /\ fst (run Samples.p0 (PyInt (-1) :: Samples.control_values) Samples.demo_session)
     <> Raise IndexError.
Proof. repeat split; try discriminate. lia. Qed.

(** ** The rule on the dropdown *)

Section SelectFacts.

Variable json_dumps : restraints -> string.
Hypothesis json_dumps_empty : json_dumps [] = "{}".

(** C3, as the code has it.  For a selector [i] between 1 and the
    number of retained scripts, whose script has the range from [a]
    to [b] and whose [ui_restraints] returns [r]: the rule returns
    one update per
    element of [inputs] but the last, which shows the dropdown at
    position 0 and, of the other positions, exactly those from [a] up
    to but not including [b], followed by the update that puts the
    JSON text of [r] in the textbox.  For any other selector, 0
    included, the rule returns without raising: it shows position 0
    only and puts "{}" in the textbox.  The world is left as it is. *)
Theorem select_script_updates (w : world) (n_inputs : nat) (i : Z) :
  ((1 <= i <= Z.of_nat (length (self_scripts w)))%Z ->
   exists s,
     nth_error (self_scripts w) (Z.to_nat (i - 1)) = Some s
     /\ forall a b r,
          args_from s = Some a -> args_to s = Some b ->
          m_ui_restraints (meths_of (cls s)) = Ret r ->
          select_script json_dumps n_inputs i w
          = (Ret (map (fun j => gr_show ((j =? 0)%nat || ((a <=? j)%nat && (j <? b)%nat)))
                      (seq 0 (n_inputs - 1))
                  ++ [TextboxUpdate (json_dumps r) false]),
             w))
  /\ ((i <= 0 \/ Z.of_nat (length (self_scripts w)) < i)%Z ->
      select_script json_dumps n_inputs i w
      = (Ret (map (fun j => gr_show (j =? 0)%nat) (seq 0 (n_inputs - 1))
              ++ [TextboxUpdate "{}" false]),
         w)).
Proof.
  split.
  - intros Hi. destruct (py_getitem_selected _ _ Hi) as (s & Hnth & Hget).
    exists s. split; [assumption|]. intros a b r Ha Hb Hr.
    unfold select_script, bind, get_self_scripts, lift.
    replace ((0 <? i) && (i <=? Z.of_nat (length (self_scripts w))))%Z with true
      by (symmetry; apply andb_true_iff; split; [apply Z.ltb_lt | apply Z.leb_le]; lia).
    rewrite Hget. unfold ret. rewrite Ha, Hb, shows_ranged, Hr. reflexivity.
  - intros Hi. unfold select_script, bind, get_self_scripts, lift.
    replace ((0 <? i) && (i <=? Z.of_nat (length (self_scripts w))))%Z with false.
    + unfold ret. rewrite shows_ranged, json_dumps_empty. do 3 f_equal.
      apply map_ext. intros j. now rewrite andb_false_r, orb_false_r.
    + symmetry. apply andb_false_iff.
      destruct Hi; [left; apply Z.ltb_ge | right; apply Z.leb_gt]; lia.
Qed.

End SelectFacts.

Lemma select_script_updates_witness :
  (exists s,
      nth_error (self_scripts Samples.demo_session) (Z.to_nat (1 - 1)) = Some s
      /\ forall a b r,
           args_from s = Some a -> args_to s = Some b ->
           m_ui_restraints (meths_of (cls s)) = Ret r ->
           select_script Samples.toy_json 5 1 Samples.demo_session
           = (Ret (map (fun j => gr_show ((j =? 0)%nat || ((a <=? j)%nat && (j <? b)%nat)))
                       (seq 0 (5 - 1))
                   ++ [TextboxUpdate (Samples.toy_json r) false]),
              Samples.demo_session))
  /\ select_script Samples.toy_json 5 7 Samples.demo_session
     = (Ret (map (fun j => gr_show (j =? 0)%nat) (seq 0 (5 - 1))
             ++ [TextboxUpdate "{}" false]),
        Samples.demo_session).
Proof.
  split.
  - apply (proj1 (select_script_updates Samples.toy_json eq_refl
                    Samples.demo_session 5 1%Z)).
    simpl. lia.
  - apply (proj2 (select_script_updates Samples.toy_json eq_refl
                    Samples.demo_session 5 7%Z)).
    right. simpl. lia.
Defined.

(** The session retains three scripts and the selector 2 lies in
    1..3, but the [ui_restraints] of the second script raises: the
    call is made outside [wrap_call], so the rule raises and returns no
    update at all, neither a visibility nor a payload. *)
Lemma select_script_raises_with_ui_restraints :
  length (self_scripts Fixtures.mixed_session) = 3
  /\ (1 <= 2 <= 3)%Z
  /\ nth_error (self_scripts Fixtures.mixed_session) 1
     = Some (mkScript Fixtures.BrokenRestraints "scripts/matrix.py" (Some 3) (Some 4))
  /\ m_ui_restraints (meths_of Fixtures.BrokenRestraints)
     = Raise (RuntimeError "restraints")
  /\ select_script Samples.toy_json (length Fixtures.mixed_inputs) 2
                   Fixtures.mixed_session
     = (Raise (RuntimeError "restraints"), Fixtures.mixed_session).
Proof. repeat split; lia. Qed.

(** What the rule of the sample session returns for selector 1 and for
    selector 0. *)
Example select_upscale :
  select_script Samples.toy_json 5 1 Samples.demo_session
  = (Ret [GrShow true; GrShow true; GrShow true; GrShow false;
          TextboxUpdate "{...}" false],
     Samples.demo_session).
Proof. reflexivity. Qed.

Example select_none :
  select_script Samples.toy_json 5 0 Samples.demo_session
  = (Ret [GrShow true; GrShow false; GrShow false; GrShow false;
          TextboxUpdate "{}" false],
     Samples.demo_session).
Proof. reflexivity. Qed.

(** * Further properties *)

(** ** Discovery *)

Section DiscoveryMore.

Variable code : Type.
Variable py_compile : string -> string -> outcome code.
Variable py_exec : code -> string -> outcome (list (string * pyobj)).

Lemma script_classes_in_sound (module_dict : list (string * pyobj)) (c : pyclass) :
In c (script_classes_in module_dict) ->
exists key, In (key, ObjClass c) module_dict /\ is_script_class (ObjClass c) = true.
Proof.
induction module_dict as [|[k o] rest IH]; simpl; [contradiction|].
destruct o as [c'|v].
- destruct (meta_is_type c' && issubclass c' 0)%bool eqn:Htest.
  + intros [Heq | Hin].
    * subst c'. exists k. split; [now left | exact Htest].
    * destruct (IH Hin) as (key & Hk & Hc). exists key. split; [now right | exact Hc].
  + intros Hin. destruct (IH Hin) as (key & Hk & Hc). exists key.
    split; [now right | exact Hc].
- intros Hin. destruct (IH Hin) as (key & Hk & Hc). exists key.
  split; [now right | exact Hc].
Qed.

Lemma file_outcome_loads fname path read module_dict :
file_outcome code py_compile py_exec fname path read = Ret module_dict ->
loads_as code py_compile py_exec fname path read module_dict.
Proof.
unfold file_outcome, loads_as. destruct read as [text|e]; [|discriminate].
destruct (py_compile text path) as [compiled|e] eqn:Hc; [|discriminate].
intros He. now exists text, compiled.
Qed.

Lemma contribution_in (basedir : string) (entries : list (string * fs_node))
  (c : pyclass) (p : string) :
In (c, p) (flat_map (contribution code py_compile py_exec basedir) entries)
<-> exists fname read module_dict key,
      In (fname, File read) entries
      /\ loads_as code py_compile py_exec fname (os_path_join basedir fname) read
                  module_dict
      /\ p = os_path_join basedir fname
      /\ In (key, ObjClass c) module_dict
      /\ is_script_class (ObjClass c) = true.
Proof.
rewrite in_flat_map. split.
- intros ([fname node] & Hentry & Hin). unfold contribution in Hin.
  destruct node as [|read|sub|x]; try contradiction.
  destruct (file_outcome code py_compile py_exec fname (os_path_join basedir fname) read)
    as [module_dict|e] eqn:Hout; [|contradiction].
  apply in_map_iff in Hin. destruct Hin as (c' & Heq & Hc'). inversion Heq; subst.
  destruct (script_classes_in_sound _ _ Hc') as (key & Hkey & Hcls).
  exists fname, read, module_dict, key. repeat split; try assumption.
  now apply file_outcome_loads.
- intros (fname & read & module_dict & key & Hentry & Hload & Hp & Hkey & Hcls).
  exists (fname, File read). split; [assumption|]. unfold contribution.
  rewrite (loading_file_outcome _ _ _ _ _ _ _ Hload). subst p.
  apply (in_map (fun c0 => (c0, os_path_join basedir fname))).
  eapply script_classes_in_complete; eassumption.
Qed.

Lemma for_each_app {A} (l1 l2 : list A) (body : A -> M unit) (w : world) :
for_each (l1 ++ l2) body w = (for_each l1 body ;;; for_each l2 body) w.
Proof.
revert w. induction l1 as [|x l1 IH]; intros w; simpl.
- reflexivity.
- unfold bind. destruct (body x w) as [[u|e] w1]; [|reflexivity].
  rewrite IH. reflexivity.
Qed.

Lemma upto_reached {A} (stop : A -> option exn) (l : list A) (x : A) :
stop x = None ->
(In x (upto stop l)
 <-> exists pre post, l = pre ++ x :: post /\ Forall (fun y => stop y = None) pre).
Proof.
intros Hx. induction l as [|y l IH]; simpl.
- split; [contradiction|]. intros (pre & post & H & _). now destruct pre.
- destruct (stop y) eqn:Hy.
  + split.
    * intros [-> | []]. congruence.
    * intros (pre & post & H & Hpre). destruct pre as [|z pre]; simpl in H.
      -- inversion H; subst. congruence.
      -- inversion H; subst. inversion Hpre; subst. congruence.
  + split.
    * intros [-> | Hin].
      -- exists [], l. split; [reflexivity | constructor].
      -- apply IH in Hin. destruct Hin as (pre & post & -> & Hpre).
         exists (y :: pre), post. split; [reflexivity | now constructor].
    * intros (pre & post & H & Hpre). destruct pre as [|z pre]; simpl in H.
      -- inversion H; subst. now left.
      -- inversion H; subst. inversion Hpre; subst. right. apply IH.
         now exists pre, post.
Qed.

Lemma first_stop_found {A} (stop : A -> option exn) (l : list A) (e : exn) :
first_stop stop l = Some e -> exists x, In x l /\ stop x = Some e.
Proof.
induction l as [|y l IH]; simpl; [discriminate|].
destruct (stop y) eqn:Hy.
- intros H. inversion H; subst. exists y. split; [now left | assumption].
- intros H. destruct (IH H) as (x & Hin & Hx). exists x. split; [now right | assumption].
Qed.

Lemma escapes_not_exception {A} (o : outcome A) (e : exn) :
escapes o = Some e -> is_exception e = false.
Proof.
unfold escapes. destruct o as [a|x]; [discriminate|].
destruct (is_exception x) eqn:Hx; [discriminate|]. intros H. now inversion H; subst.
Qed.

(** The scan only appends: whatever the path names and however the
  scan ends, [load_scripts] leaves [self.scripts] and the events
  alone and keeps the descriptors and stderr lines that were there,
  in place.  A path that does not exist is not an error and adds
  nothing.  A path that is no directory, or a directory that cannot
  be listed, raises and adds nothing.  The scan of a directory
  returns, or raises an exception that is no instance of
  [Exception]. *)
Theorem load_scripts_only_appends (fs : string -> fs_node) (basedir : string)
  (w : world) :
exists added lines,
  snd (load_scripts code py_compile py_exec fs basedir w) = after_load w added lines
  /\ match fs basedir with
     | Absent =>
         fst (load_scripts code py_compile py_exec fs basedir w) = Ret tt
         /\ added = [] /\ lines = []
     | File _ =>
         fst (load_scripts code py_compile py_exec fs basedir w)
         = Raise (OSError "NotADirectoryError")
         /\ added = [] /\ lines = []
     | Unlistable e =>
         fst (load_scripts code py_compile py_exec fs basedir w) = Raise e
         /\ added = [] /\ lines = []
     | Directory _ =>
         fst (load_scripts code py_compile py_exec fs basedir w) = Ret tt
         \/ exists e,
              fst (load_scripts code py_compile py_exec fs basedir w) = Raise e
              /\ is_exception e = false
     end.
Proof.
unfold load_scripts. destruct (fs basedir) as [|read|entries|x].
- exists [], []. rewrite after_load_nil. repeat split.
- exists [], []. rewrite after_load_nil. repeat split.
- rewrite load_entries_effect. do 2 eexists. split; [reflexivity|]. cbn [fst].
  destruct (first_stop (stops_scan code py_compile py_exec basedir) entries) as [e|] eqn:Hstop;
    [right | now left].
  exists e. split; [reflexivity|].
  destruct (first_stop_found _ _ _ Hstop) as ([fname node] & _ & Hx).
  unfold stops_scan in Hx. destruct node as [|read|sub|x]; try discriminate.
  now apply escapes_not_exception in Hx.
- exists [], []. rewrite after_load_nil. repeat split.
Qed.

(** The scan is not recursive: an entry of the directory that is not a
  regular file, a subdirectory for one, is passed over without a
  trace, whatever it holds. *)
Theorem load_scripts_skips_non_files
  (fs fs' : string -> fs_node) (basedir : string)
  (pre post : list (string * fs_node)) (name : string) (node : fs_node)
  (w : world) :
fs basedir = Directory (pre ++ (name, node) :: post) ->
fs' basedir = Directory (pre ++ post) ->
(node = Absent \/ exists sub, node = Directory sub) ->
load_scripts code py_compile py_exec fs basedir w
= load_scripts code py_compile py_exec fs' basedir w.
Proof.
intros Hfs Hfs' Hnode. unfold load_scripts. rewrite Hfs, Hfs'.
rewrite !for_each_app. unfold bind.
destruct (for_each pre (load_entry code py_compile py_exec basedir) w) as [[u|e] w1];
  [|reflexivity].
cbn [for_each]. unfold bind.
destruct Hnode as [-> | (sub & ->)]; reflexivity.
Qed.

(** Scanning a directory is scanning its entries in order: the scan of
  the entries [first ++ second] does what a scan of [first] followed
  by a scan of [second] does, the second scan not taking place when
  the first raises. *)
Theorem load_scripts_in_order
  (fs fs1 fs2 : string -> fs_node) (basedir : string)
  (first second : list (string * fs_node)) (w : world) :
fs basedir = Directory (first ++ second) ->
fs1 basedir = Directory first ->
fs2 basedir = Directory second ->
load_scripts code py_compile py_exec fs basedir w
= (load_scripts code py_compile py_exec fs1 basedir ;;;
   load_scripts code py_compile py_exec fs2 basedir) w.
Proof.
intros H H1 H2. unfold load_scripts. rewrite H, H1, H2. apply for_each_app.
Qed.

(** What the scan of a directory registers, exactly: a pair of a class
  and a path is in the registry afterwards when it was there before,
  or when the path is that of a regular file of the directory that
  the scan reaches (no file before it raises outside [Exception]) and
  that loads, and the class is bound at its top level, has [type] as
  its metaclass and is [Script] or derives from it.  Values that are
  not classes, classes with another metaclass, and bindings of files
  that fail are never registered. *)
Theorem load_scripts_registers_exactly
  (fs : string -> fs_node) (basedir : string)
  (entries : list (string * fs_node)) (w : world) (c : pyclass) (p : string) :
fs basedir = Directory entries ->
(In (c, p) (scripts_data (snd (load_scripts code py_compile py_exec fs basedir w)))
 <-> In (c, p) (scripts_data w)
     \/ exists pre post fname read module_dict key,
          entries = pre ++ (fname, File read) :: post
          /\ Forall (passes code py_compile py_exec basedir) pre
          /\ loads_as code py_compile py_exec fname (os_path_join basedir fname) read
                      module_dict
          /\ p = os_path_join basedir fname
          /\ In (key, ObjClass c) module_dict
          /\ meta_is_type c = true
          /\ issubclass c (cid_of Script) = true).
Proof.
intros H. rewrite (load_scripts_directory _ _ _ _ _ _ w H).
cbn [snd after_load scripts_data]. rewrite in_app_iff, contribution_in.
set (stop := stops_scan code py_compile py_exec basedir).
assert (Hloads : forall fname read module_dict,
           loads_as code py_compile py_exec fname (os_path_join basedir fname) read
                    module_dict ->
           stop (fname, File read) = None).
{ intros fname read module_dict Hl. apply loading_file_outcome in Hl.
  unfold stop, stops_scan, escapes. now rewrite Hl. }
split.
- intros [Hold | (fname & read & module_dict & key & He & Hl & Hp & Hk & Hcls)];
    [now left | right].
  apply (upto_reached stop _ _ (Hloads _ _ _ Hl)) in He.
  destruct He as (pre & post & Hentries & Hpre).
  exists pre, post, fname, read, module_dict, key.
  unfold is_script_class, type_is_type in Hcls. apply andb_true_iff in Hcls.
  repeat split; try tauto.
  eapply Forall_impl; [|exact Hpre]. intros x. apply passes_stops.
- intros [Hold | (pre & post & fname & read & module_dict & key
                  & Hentries & Hpre & Hl & Hp & Hk & Hm & Hs)];
    [now left | right].
  exists fname, read, module_dict, key. repeat split; try assumption.
  + apply (upto_reached stop _ _ (Hloads _ _ _ Hl)).
    exists pre, post. split; [assumption|]. now apply passes_all.
  + unfold is_script_class, type_is_type. apply andb_true_iff. now split.
Qed.

End DiscoveryMore.

Lemma load_scripts_skips_non_files_witness :
  load_scripts string Samples.toy_compile Samples.toy_exec
    (Samples.dir_with [Samples.broken_py; Fixtures.subdir; Samples.upscale_py])
    "scripts" Samples.empty_world
  = load_scripts string Samples.toy_compile Samples.toy_exec
      (Samples.dir_with [Samples.broken_py; Samples.upscale_py])
      "scripts" Samples.empty_world.
Proof.
  apply (load_scripts_skips_non_files string Samples.toy_compile Samples.toy_exec
           (Samples.dir_with [Samples.broken_py; Fixtures.subdir; Samples.upscale_py])
           (Samples.dir_with [Samples.broken_py; Samples.upscale_py])
           "scripts" [Samples.broken_py] [Samples.upscale_py] "lib"
           (Directory [Samples.upscale_py]) Samples.empty_world).
  - reflexivity.
  - reflexivity.
  - right. exists [Samples.upscale_py]. reflexivity.
Defined.

Lemma load_scripts_in_order_witness :
  load_scripts string Samples.toy_compile Samples.toy_exec
    (Samples.dir_with [Samples.broken_py; Samples.upscale_py; Samples.base_py])
    "scripts" Samples.empty_world
  = (load_scripts string Samples.toy_compile Samples.toy_exec
       (Samples.dir_with [Samples.broken_py]) "scripts" ;;;
     load_scripts string Samples.toy_compile Samples.toy_exec
       (Samples.dir_with [Samples.upscale_py; Samples.base_py]) "scripts")
      Samples.empty_world.
Proof.
  apply (load_scripts_in_order string Samples.toy_compile Samples.toy_exec
           (Samples.dir_with [Samples.broken_py; Samples.upscale_py; Samples.base_py])
           (Samples.dir_with [Samples.broken_py])
           (Samples.dir_with [Samples.upscale_py; Samples.base_py])
           "scripts" [Samples.broken_py] [Samples.upscale_py; Samples.base_py]
           Samples.empty_world); reflexivity.
Defined.

Lemma load_scripts_registers_exactly_witness :
  In (Samples.Loopback, "scripts/many.py")
     (scripts_data (snd (load_scripts string Samples.toy_compile Fixtures.many_exec
                           (Samples.dir_with [Fixtures.many_py]) "scripts"
                           Samples.empty_world)))
  <-> In (Samples.Loopback, "scripts/many.py") (scripts_data Samples.empty_world)
      \/ exists pre post fname read module_dict key,
           [Fixtures.many_py] = pre ++ (fname, File read) :: post
           /\ Forall (passes string Samples.toy_compile Fixtures.many_exec "scripts") pre
           /\ loads_as string Samples.toy_compile Fixtures.many_exec fname
                       (os_path_join "scripts" fname) read module_dict
           /\ "scripts/many.py" = os_path_join "scripts" fname
           /\ In (key, ObjClass Samples.Loopback) module_dict
           /\ meta_is_type Samples.Loopback = true
           /\ issubclass Samples.Loopback (cid_of Script) = true.
Proof.
  apply (load_scripts_registers_exactly string Samples.toy_compile Fixtures.many_exec
           (Samples.dir_with [Fixtures.many_py]) "scripts" [Fixtures.many_py]
           Samples.empty_world Samples.Loopback "scripts/many.py").
  reflexivity.
Defined.

(** A scan that a file stops: the descriptor of the file before it
    stays, the file after it is not reached. *)
Example load_scripts_stopped_midway :
  load_scripts string Samples.toy_compile Fixtures.exit_exec
    (Samples.dir_with [Samples.upscale_py; Fixtures.exit_py; Samples.base_py])
    "scripts" Samples.empty_world
  = (Raise SystemExit, mkWorld [(Samples.Upscale, "scripts/upscale.py")] [] [] []).
Proof. reflexivity. Qed.

(** The scan of a file with three classes keeps the two whose metaclass
    is [type], in the order of the bindings, under the same path. *)
Example load_scripts_many :
  scripts_data (snd (load_scripts string Samples.toy_compile Fixtures.many_exec
                       (Samples.dir_with [Fixtures.many_py]) "scripts"
                       Samples.empty_world))
  = [(Samples.Upscale, "scripts/many.py"); (Samples.Loopback, "scripts/many.py")].
Proof. reflexivity. Qed.

(** ** The first loop *)

Lemma scan_none_iff (b : bool) (data : list (pyclass * string)) :
  snd (scan b data) = None <-> Forall (answers_show b) data.
Proof.
  induction data as [|[c path] rest IH]; simpl.
  - split; [constructor | reflexivity].
  - destruct (m_init (meths_of c)) as [[]|e] eqn:Hi; simpl.
    + destruct (m_show (meths_of c) b) as [shown|e] eqn:Hs; simpl.
      * destruct (scan b rest) as [l stop]; simpl in *. rewrite IH. split.
        -- intros H. constructor; [|assumption].
           split; simpl; [exact Hi | now exists shown].
        -- intros H. now inversion H.
      * split; [discriminate|]. intros H. inversion H as [|? ? (_ & v & Hv) _]; subst.
        simpl in Hv. congruence.
    + split; [discriminate|]. intros H. inversion H as [|? ? (Hi' & _) _]; subst.
      simpl in Hi'. congruence.
Qed.

Lemma scan_stops (b : bool) (pre post : list (pyclass * string))
    (d : pyclass * string) (e : exn) :
  Forall (answers_show b) pre ->
  fails_show b d e ->
  scan b (pre ++ d :: post) = (map fresh_instance (filter (shown_on b) pre), Some e).
Proof.
  intros Hpre Hfail. induction Hpre as [|[c path] pre (Hinit & shown & Hshow) _ IH].
  - destruct d as [c path]. simpl in *.
    destruct Hfail as [Hi | (Hi & Hs)]; simpl in *.
    + now rewrite Hi.
    + now rewrite Hi, Hs.
  - simpl in *. unfold shown_on at 1. simpl. rewrite Hinit, Hshow, IH.
    destruct shown; reflexivity.
Qed.

Lemma scan_retained (b : bool) (data : list (pyclass * string)) :
  snd (scan b data) = None ->
  fst (scan b data) = map fresh_instance (filter (shown_on b) data).
Proof.
  induction data as [|[c path] rest IH]; simpl; [reflexivity|].
  unfold shown_on at 1. simpl.
  destruct (m_init (meths_of c)) as [[]|e]; simpl; [|discriminate].
  destruct (m_show (meths_of c) b) as [shown|e]; simpl; [|discriminate].
  destruct (scan b rest) as [l stop]; simpl in *. intros ->.
  destruct shown; simpl; now rewrite IH.
Qed.

(** When a constructor or a [show] raises, [setup_ui] stops at the
    first descriptor that does so and raises its exception.  Nothing is
    written to stderr and no list is returned; the descriptors after it
    are not instantiated; the scripts shown before it have been
    appended to [self.scripts], with [args_from] and [args_to] still
    [None]. *)
Theorem setup_ui_raises_at_first_failure (is_img2img : bool) (w : world)
    (pre post : list (pyclass * string)) (d : pyclass * string) (e : exn) :
  scripts_data w = pre ++ d :: post ->
  Forall (answers_show is_img2img) pre ->
  fails_show is_img2img d e ->
  setup_ui is_img2img w
  = (Raise e,
     mkWorld (scripts_data w)
             (self_scripts w ++ map fresh_instance (filter (shown_on is_img2img) pre))
             (stderr w) (events w)).
Proof.
  intros Hdata Hpre Hfail.
  pose proof (scan_stops is_img2img _ post _ _ Hpre Hfail) as Hscan.
  rewrite <- Hdata in Hscan.
  rewrite (setup_ui_scan_fails is_img2img w e) by now rewrite Hscan.
  rewrite Hscan. reflexivity.
Qed.

Lemma setup_ui_raises_at_first_failure_witness :
  setup_ui false Fixtures.late_failure_registry
  = (Raise (RuntimeError "show"),
     mkWorld (scripts_data Fixtures.late_failure_registry)
             (self_scripts Fixtures.late_failure_registry
              ++ map fresh_instance
                   (filter (shown_on false)
                      [(Samples.Upscale, "scripts/upscale.py");
                       (Samples.Loopback, "scripts/loopback.py")]))
             (stderr Fixtures.late_failure_registry)
             (events Fixtures.late_failure_registry)).
Proof.
  apply (setup_ui_raises_at_first_failure false Fixtures.late_failure_registry
           [(Samples.Upscale, "scripts/upscale.py");
            (Samples.Loopback, "scripts/loopback.py")]
           [(Samples.Untitled, "scripts/untitled.py")]
           (Samples.BrokenShow, "scripts/picky.py") (RuntimeError "show")).
  - reflexivity.
  - repeat constructor; now exists true + now exists false.
  - right. split; reflexivity.
Defined.

(** [setup_ui] reads the registry and never writes it: whether it
    returns or raises, [scripts_data] and the events are as before, the
    instances that were in [self.scripts] are still there in their
    places, and stderr has only grown. *)
Theorem setup_ui_keeps_registry (is_img2img : bool) (w : world) :
  let w' := snd (setup_ui is_img2img w) in
  scripts_data w' = scripts_data w
  /\ events w' = events w
  /\ (exists more, map origin (self_scripts w') = map origin (self_scripts w) ++ more)
  /\ exists lines, stderr w' = stderr w ++ lines.
Proof.
  cbv zeta. rewrite setup_ui_cases.
  destruct (snd (scan is_img2img (scripts_data w))) as [e|].
  - cbn. repeat split.
    + eexists. now rewrite map_app.
    + exists []. now rewrite app_nil_r.
  - cbv zeta.
    destruct (first_stop title_escape _) as [e|].
    + cbn. repeat split.
      * eexists. now rewrite map_app.
      * eexists. reflexivity.
    + destruct (first_stop (ui_escape is_img2img) _) as [e|].
      * cbn [snd].
        lazymatch goal with
        | |- context [place_controls is_img2img ?l 0 ?i ?w0] =>
            destruct (place_controls_keeps is_img2img l 0 i w0)
              as (H1 & H2 & H3 & lines & H4)
        end.
        cbn [scripts_data events self_scripts stderr] in H1, H2, H3, H4.
        rewrite H1, H2, H3, H4. repeat split.
        -- eexists. now rewrite map_app.
        -- eexists. now rewrite <- app_assoc.
      * cbn. repeat split.
        -- eexists. now rewrite laid_out_origin, map_app.
        -- eexists. reflexivity.
Qed.

(** ** The slots of a session *)

Lemma controls_of_length (b : bool) (s : script) :
  length (controls_of b s) = ctrl_count b s.
Proof.
  unfold controls_of, ctrl_count.
  destruct (m_ui (meths_of (cls s)) b) as [[controls|]|e]; simpl; auto using length_map.
Qed.

Lemma controls_at (b : bool) (l : list script) (k : nat) (s : script) (j : nat) :
  nth_error l k = Some s ->
  j < ctrl_count b s ->
  nth_error (flat_map (controls_of b) l) (list_sum (map (ctrl_count b) (firstn k l)) + j)
  = nth_error (controls_of b s) j.
Proof.
  revert k. induction l as [|x l IH]; intros k Hk Hj.
  - destruct k; discriminate.
  - destruct k as [|k]; simpl in *.
    + inversion Hk; subst. apply nth_error_app1. now rewrite controls_of_length.
    + rewrite nth_error_app2 by (rewrite controls_of_length; lia).
      rewrite controls_of_length.
      replace (ctrl_count b x + list_sum (map (ctrl_count b) (firstn k l)) + j
               - ctrl_count b x)
        with (list_sum (map (ctrl_count b) (firstn k l)) + j) by lia.
      now apply IH.
Qed.

Lemma sum_through (b : bool) (l : list script) (k : nat) (s : script) :
  nth_error l k = Some s ->
  list_sum (map (ctrl_count b) (firstn k l)) + ctrl_count b s
  <= list_sum (map (ctrl_count b) l).
Proof.
  revert k. induction l as [|x l IH]; intros k Hk.
  - destruct k; discriminate.
  - destruct k as [|k]; simpl in *.
    + inversion Hk; subst. lia.
    + specialize (IH _ Hk). lia.
Qed.

Lemma sum_before (b : bool) (l : list script) (k1 k2 : nat) (s1 : script) :
  k1 < k2 ->
  nth_error l k1 = Some s1 ->
  list_sum (map (ctrl_count b) (firstn k1 l)) + ctrl_count b s1
  <= list_sum (map (ctrl_count b) (firstn k2 l)).
Proof.
  revert k1 k2. induction l as [|x l IH]; intros k1 k2 Hlt Hk.
  - destruct k1; discriminate.
  - destruct k2 as [|k2]; [lia|]. destruct k1 as [|k1]; simpl in *.
    + inversion Hk; subst. lia.
    + assert (Hlt' : k1 < k2) by lia. specialize (IH _ _ Hlt' Hk). lia.
Qed.

Lemma laid_out_cover (b : bool) (l : list script) (start j : nat) :
  start <= j < start + list_sum (map (ctrl_count b) l) ->
  exists k s a e,
    nth_error (laid_out b start l) k = Some s
    /\ args_from s = Some a /\ args_to s = Some e /\ a <= j < e.
Proof.
  revert start. induction l as [|x l IH]; intros start Hj; simpl in *.
  - lia.
  - destruct (Nat.lt_ge_cases j (start + ctrl_count b x)) as [Hlt | Hge].
    + exists 0. do 3 eexists. repeat split; simpl; lia.
    + destruct (IH (start + ctrl_count b x)) as (k & s & a & e & Hk & Ha & He & Hin);
        [lia|].
      exists (S k), s, a, e. auto.
Qed.

(** The slots of a script hold its controls, in the order [ui]
    returned them: the [j]-th control stands at position
    [args_from + j] of the list [setup_ui] returns, with its widget
    unchanged, hidden, and tagged with the base name of the script's
    file. *)
Theorem setup_ui_slot_contents (is_img2img : bool) (w w' : world)
    (inputs : list component) (k : nat) (s : script) (a : nat)
    (controls : list component) (j : nat) (control : component) :
  setup_ui is_img2img w = (Ret inputs, w') ->
  nth_error (self_scripts w') k = Some s ->
  args_from s = Some a ->
  m_ui (meths_of (cls s)) is_img2img = Ret (Some controls) ->
  nth_error controls j = Some control ->
  nth_error inputs (a + j)
  = Some (mkComponent (widget_of control) (Some (os_path_basename (filename s))) false).
Proof.
  intros Hbuild Hk Ha Hui Hj. apply setup_ui_returns in Hbuild.
  destruct Hbuild as (scripts & _ & _ & Hself & Hinputs & _ & _).
  rewrite Hself in Hk. destruct (laid_out_nth _ _ _ _ _ Hk) as (s0 & Hs0 & Hc & Hf & Ha' & _).
  rewrite Ha in Ha'. inversion Ha'; subst a. clear Ha'.
  assert (Hcount : j < ctrl_count is_img2img s0).
  { unfold ctrl_count. rewrite <- Hc, Hui. apply nth_error_Some. congruence. }
  assert (Hat : nth_error (flat_map (controls_of is_img2img) scripts)
                  (list_sum (map (ctrl_count is_img2img) (firstn k scripts)) + j)
                = Some (tag_control s0 control)).
  { rewrite (controls_at _ _ _ _ _ Hs0 Hcount). unfold controls_of.
    rewrite <- Hc, Hui, nth_error_map, Hj. reflexivity. }
  rewrite Hinputs. cbn [Nat.add nth_error].
  rewrite nth_error_app1 by (apply nth_error_Some; congruence).
  rewrite Hat. unfold tag_control. now rewrite Hf.
Qed.

Lemma setup_ui_slot_contents_witness :
  nth_error Samples.demo_inputs (1 + 1)
  = Some (mkComponent (widget_of (Samples.slider "tile"))
            (Some (os_path_basename
                     (filename (mkScript Samples.Upscale "scripts/upscale.py"
                                  (Some 1) (Some 3)))))
            false).
Proof.
  apply (setup_ui_slot_contents true Samples.demo_registry Samples.demo_session
           Samples.demo_inputs 0
           (mkScript Samples.Upscale "scripts/upscale.py" (Some 1) (Some 3)) 1
           [Samples.slider "scale"; Samples.slider "tile"] 1 (Samples.slider "tile"));
    reflexivity.
Defined.

(** The ranges of a session stay off the two fixed slots and are in
    order: every retained script has a range, it starts at 1 or later
    and ends before the last position of the list [setup_ui] returns,
    and the range of a script ends where or before that of any later
    script begins. *)
Theorem setup_ui_ranges_ordered (is_img2img : bool) (w w' : world)
    (inputs : list component) :
  setup_ui is_img2img w = (Ret inputs, w') ->
  (forall k s,
      nth_error (self_scripts w') k = Some s ->
      exists a e,
        args_from s = Some a /\ args_to s = Some e
        /\ 1 <= a /\ a <= e /\ e <= length inputs - 1)
  /\ forall k1 k2 s1 s2 e1 a2,
       k1 < k2 ->
       nth_error (self_scripts w') k1 = Some s1 ->
       nth_error (self_scripts w') k2 = Some s2 ->
       args_to s1 = Some e1 -> args_from s2 = Some a2 ->
       e1 <= a2.
Proof.
  intros Hbuild. apply setup_ui_returns in Hbuild.
  destruct Hbuild as (scripts & _ & _ & Hself & Hinputs & _ & _).
  rewrite Hself, Hinputs. split.
  - intros k s Hk. destruct (laid_out_nth _ _ _ _ _ Hk) as (s0 & Hs0 & _ & _ & Ha & He).
    do 2 eexists. split; [exact Ha|]. split; [exact He|].
    pose proof (sum_through is_img2img _ _ _ Hs0).
    cbn [length]. rewrite length_app, controls_length. simpl. lia.
  - intros k1 k2 s1 s2 e1 a2 Hlt Hk1 Hk2 He1 Ha2.
    destruct (laid_out_nth _ _ _ _ _ Hk1) as (t1 & Ht1 & _ & _ & _ & He).
    destruct (laid_out_nth _ _ _ _ _ Hk2) as (t2 & Ht2 & _ & _ & Ha & _).
    rewrite He1 in He. rewrite Ha2 in Ha. inversion He; inversion Ha; subst.
    pose proof (sum_before is_img2img _ _ _ _ Hlt Ht1). lia.
Qed.

Lemma setup_ui_ranges_ordered_witness :
  (forall k s,
      nth_error (self_scripts Samples.demo_session) k = Some s ->
      exists a e,
        args_from s = Some a /\ args_to s = Some e
        /\ 1 <= a /\ a <= e /\ e <= length Samples.demo_inputs - 1)
  /\ forall k1 k2 s1 s2 e1 a2,
       k1 < k2 ->
       nth_error (self_scripts Samples.demo_session) k1 = Some s1 ->
       nth_error (self_scripts Samples.demo_session) k2 = Some s2 ->
       args_to s1 = Some e1 -> args_from s2 = Some a2 ->
       e1 <= a2.
Proof.
  apply (setup_ui_ranges_ordered true Samples.demo_registry Samples.demo_session
           Samples.demo_inputs).
  reflexivity.
Defined.

(** Every position between the dropdown and the restraints textbox
    belongs to exactly one retained script: it lies in the range of one
    script and of no other. *)
Theorem setup_ui_every_control_owned (is_img2img : bool) (w w' : world)
    (inputs : list component) (j : nat) :
  setup_ui is_img2img w = (Ret inputs, w') ->
  1 <= j < length inputs - 1 ->
  exists k s a e,
    nth_error (self_scripts w') k = Some s
    /\ args_from s = Some a /\ args_to s = Some e /\ a <= j < e
    /\ forall k' s' a' e',
         nth_error (self_scripts w') k' = Some s' ->
         args_from s' = Some a' -> args_to s' = Some e' -> a' <= j < e' ->
         k' = k.
Proof.
  intros Hbuild Hj. pose proof Hbuild as Hret. apply setup_ui_returns in Hret.
  destruct Hret as (scripts & _ & _ & Hself & Hinputs & _ & _).
  assert (Hlen : length inputs - 1 = 1 + list_sum (map (ctrl_count is_img2img) scripts)).
  { rewrite Hinputs. cbn [length]. rewrite length_app, controls_length. simpl. lia. }
  destruct (laid_out_cover is_img2img scripts 1 j) as (k & s & a & e & Hk & Ha & He & Hin);
    [lia|].
  rewrite <- Hself in Hk. exists k, s, a, e. repeat split; try assumption; try lia.
  intros k' s' a' e' Hk' Ha' He' Hin'.
  rewrite Hself in Hk, Hk'.
  destruct (laid_out_nth _ _ _ _ _ Hk) as (t & Ht & _ & _ & Hat & Het).
  destruct (laid_out_nth _ _ _ _ _ Hk') as (t' & Ht' & _ & _ & Hat' & Het').
  rewrite Ha in Hat. rewrite He in Het. rewrite Ha' in Hat'. rewrite He' in Het'.
  inversion Hat; inversion Het; inversion Hat'; inversion Het'; subst.
  destruct (Nat.lt_trichotomy k' k) as [Hlt | [Heq | Hgt]]; [|assumption|].
  - pose proof (sum_before is_img2img _ _ _ _ Hlt Ht'). lia.
  - pose proof (sum_before is_img2img _ _ _ _ Hgt Ht). lia.
Qed.

Lemma setup_ui_every_control_owned_witness :
  exists k s a e,
    nth_error (self_scripts Samples.demo_session) k = Some s
    /\ args_from s = Some a /\ args_to s = Some e /\ a <= 3 < e
    /\ forall k' s' a' e',
         nth_error (self_scripts Samples.demo_session) k' = Some s' ->
         args_from s' = Some a' -> args_to s' = Some e' -> a' <= 3 < e' ->
         k' = k.
Proof.
  apply (setup_ui_every_control_owned true Samples.demo_registry Samples.demo_session
           Samples.demo_inputs 3).
  - reflexivity.
  - simpl. lia.
Defined.

(** ** Selecting and dispatching *)

Lemma py_getitem_in {A} (l : list A) (k : Z) (x : A) :
  py_getitem l k = Ret x -> In x l.
Proof.
  unfold py_getitem.
  destruct ((0 <=? _) && _)%Z; [|discriminate].
  destruct (nth_error l _) as [y|] eqn:Hy; [|discriminate].
  intros H. inversion H; subst. eapply nth_error_In; eassumption.
Qed.

Lemma py_getitem_wraps {A} (l : list A) (i : Z) :
  (- Z.of_nat (length l) < i < 0)%Z ->
  exists x, nth_error l (Z.to_nat (Z.of_nat (length l) + i - 1)) = Some x
            /\ py_getitem l (i - 1) = Ret x.
Proof.
  intros Hi. unfold py_getitem.
  replace (i - 1 <? 0)%Z with true by (symmetry; apply Z.ltb_lt; lia).
  replace ((0 <=? i - 1 + Z.of_nat (length l))
           && (i - 1 + Z.of_nat (length l) <? Z.of_nat (length l)))%Z with true
    by (symmetry; apply andb_true_iff; split; [apply Z.leb_le | apply Z.ltb_lt]; lia).
  replace (i - 1 + Z.of_nat (length l))%Z with (Z.of_nat (length l) + i - 1)%Z by lia.
  destruct (nth_error l (Z.to_nat (Z.of_nat (length l) + i - 1))) as [x|] eqn:Hx.
  - now exists x.
  - apply nth_error_None in Hx. lia.
Qed.

(** What [run] does once the selector has picked the script [s]. *)
Lemma run_at (w : world) (p : StableDiffusionProcessing) (i : Z)
    (rest : list pyval) (s : script) :
  i <> 0%Z ->
  py_getitem (self_scripts w) (i - 1) = Ret s ->
  run p (PyInt i :: rest) w
  = (m_run (meths_of (cls s)) p
       (py_slice (PyInt i :: rest) (args_from s) (args_to s)),
     set_events
       (fun l => l ++ RunCalled s p (py_slice (PyInt i :: rest) (args_from s) (args_to s))
                      :: match m_run (meths_of (cls s)) p
                                 (py_slice (PyInt i :: rest) (args_from s) (args_to s)) with
                         | Ret _ => [TqdmClear]
                         | Raise _ => []
                         end)
       w).
Proof.
  intros Hnz Hget. unfold run, bind, lift. rewrite py_getitem_head.
  cbn [py_eq_zero py_sub_one].
  replace (i =? 0)%Z with false by (symmetry; now apply Z.eqb_neq).
  unfold get_self_scripts. rewrite Hget. unfold call_run, tqdm_clear.
  destruct (m_run (meths_of (cls s)) p _) as [processed|e].
  - unfold ret, set_events. cbn. now rewrite <- app_assoc.
  - reflexivity.
Qed.

(** What the rule does once the selector has picked the script [s]. *)
Lemma select_at (json_dumps : restraints -> string) (w : world) (n_inputs : nat)
    (i : Z) (s : script) (a e : nat) :
  (1 <= i <= Z.of_nat (length (self_scripts w)))%Z ->
  py_getitem (self_scripts w) (i - 1) = Ret s ->
  args_from s = Some a -> args_to s = Some e ->
  select_script json_dumps n_inputs i w
  = (match m_ui_restraints (meths_of (cls s)) with
     | Ret r =>
         Ret (map (fun j => gr_show ((j =? 0)%nat || ((a <=? j)%nat && (j <? e)%nat)))
                  (seq 0 (n_inputs - 1))
              ++ [TextboxUpdate (json_dumps r) false])
     | Raise x => Raise x
     end, w).
Proof.
  intros Hi Hget Ha He. unfold select_script, bind, get_self_scripts, lift.
  replace ((0 <? i) && (i <=? Z.of_nat (length (self_scripts w))))%Z with true
    by (symmetry; apply andb_true_iff; split; [apply Z.ltb_lt | apply Z.leb_le]; lia).
  rewrite Hget. unfold ret. rewrite Ha, He, shows_ranged.
  destruct (m_ui_restraints (meths_of (cls s))); reflexivity.
Qed.

Lemma shows_shape (a b : option nat) (positions : list nat) (us : list update) :
  shows a b positions = Ret us ->
  length us = length positions
  /\ forall rest, positions = 0 :: rest -> nth_error us 0 = Some (GrShow true).
Proof.
  revert us. induction positions as [|j rest IH]; intros us H; simpl in H.
  - inversion H. split; [reflexivity | discriminate].
  - destruct (if (j =? 0)%nat then Ret true else chained_le_lt a j b) as [v|x] eqn:Hv;
      [|discriminate].
    destruct (shows a b rest) as [us'|x]; [|discriminate].
    inversion H; subst. destruct (IH us' eq_refl) as [Hlen _]. split.
    + simpl. now rewrite Hlen.
    + intros rest' Heq. inversion Heq; subst. simpl in Hv. inversion Hv. reflexivity.
Qed.

(** The rule never writes: whatever the selector and whatever the state
    of the runner, it leaves the world as it is.  When it returns, it
    returns one update per element of a list of [n_inputs] elements:
    the first shows the dropdown, the last is the update of the
    restraints textbox and keeps it hidden. *)
Theorem select_script_shape (json_dumps : restraints -> string) (w : world)
    (n_inputs : nat) (i : Z) :
  snd (select_script json_dumps n_inputs i w) = w
  /\ forall us,
       fst (select_script json_dumps n_inputs i w) = Ret us ->
       length us = n_inputs - 1 + 1
       /\ (2 <= n_inputs -> nth_error us 0 = Some (GrShow true))
       /\ exists payload, nth_error us (n_inputs - 1) = Some (TextboxUpdate payload false).
Proof.
  assert (Hshape : forall a b l payload us0,
             shows a b (seq 0 (n_inputs - 1)) = Ret l ->
             Ret (l ++ [TextboxUpdate payload false]) = Ret us0 ->
             length us0 = n_inputs - 1 + 1
             /\ (2 <= n_inputs -> nth_error us0 0 = Some (GrShow true))
             /\ exists v, nth_error us0 (n_inputs - 1) = Some (TextboxUpdate v false)).
  { intros a b l payload us0 Hl Hus. inversion Hus; subst. clear Hus.
    destruct (shows_shape _ _ _ _ Hl) as [Hlen Hhead].
    rewrite length_seq in Hlen. repeat split.
    - rewrite length_app, Hlen. reflexivity.
    - intros Hn. destruct n_inputs as [|[|n]]; try lia.
      specialize (Hhead (seq 1 n) eq_refl).
      destruct l as [|u l']; [discriminate | exact Hhead].
    - exists payload. rewrite nth_error_app2 by lia.
      rewrite Hlen, Nat.sub_diag. reflexivity. }
  unfold select_script, bind, get_self_scripts, lift, ret.
  destruct ((0 <? i) && (i <=? Z.of_nat (length (self_scripts w))))%Z.
  - destruct (py_getitem (self_scripts w) (i - 1)) as [s|x]; [|split; [reflexivity|discriminate]].
    destruct (shows (args_from s) (args_to s) (seq 0 (n_inputs - 1))) as [l|x] eqn:Hl;
      [|split; [reflexivity|discriminate]].
    destruct (m_ui_restraints (meths_of (cls s))) as [r|x];
      [|split; [reflexivity|discriminate]].
    split; [reflexivity|]. intros us Hus. cbn [fst] in Hus. eapply Hshape; eassumption.
  - destruct (shows (Some 0) (Some 0) (seq 0 (n_inputs - 1))) as [l|x] eqn:Hl;
      [|split; [reflexivity|discriminate]].
    split; [reflexivity|]. intros us Hus. cbn [fst] in Hus. eapply Hshape; eassumption.
Qed.

Lemma select_script_shape_witness :
  length [GrShow true; GrShow true; GrShow true; GrShow false;
          TextboxUpdate "{...}" false] = 5 - 1 + 1
  /\ (2 <= 5 ->
      nth_error [GrShow true; GrShow true; GrShow true; GrShow false;
                 TextboxUpdate "{...}" false] 0 = Some (GrShow true))
  /\ exists payload,
       nth_error [GrShow true; GrShow true; GrShow true; GrShow false;
                  TextboxUpdate "{...}" false] (5 - 1)
       = Some (TextboxUpdate payload false).
Proof.
  apply (proj2 (select_script_shape Samples.toy_json Samples.demo_session 5 1%Z)).
  reflexivity.
Defined.

(** On a session [setup_ui] has built, the rule for a selector between
    1 and the number of retained scripts depends on [ui_restraints]
    only: when it raises, the exception leaves the rule, as the call is
    not made through [wrap_call]; when it returns, the rule returns one
    update per element of [inputs], and of the updates before the last
    the ones that show are the one of the dropdown and those at the
    positions of the controls of the selected script, as many as its
    [ui] declared. *)
Theorem select_script_on_session (json_dumps : restraints -> string)
    (is_img2img : bool) (w w' : world) (inputs : list component) (i : Z) :
  setup_ui is_img2img w = (Ret inputs, w') ->
  (1 <= i <= Z.of_nat (length (self_scripts w')))%Z ->
  exists s a,
    nth_error (self_scripts w') (Z.to_nat (i - 1)) = Some s
    /\ args_from s = Some a
    /\ match m_ui_restraints (meths_of (cls s)) with
       | Raise x => select_script json_dumps (length inputs) i w' = (Raise x, w')
       | Ret r =>
           exists us,
             select_script json_dumps (length inputs) i w'
             = (Ret (us ++ [TextboxUpdate (json_dumps r) false]), w')
             /\ length us + 1 = length inputs
             /\ forall j, j < length us ->
                  exists v, nth_error us j = Some (GrShow v)
                            /\ (v = true <-> j = 0 \/ a <= j < a + ctrl_count is_img2img s)
       end.
Proof.
  intros Hbuild Hi. pose proof Hbuild as Hret. apply setup_ui_returns in Hret.
  destruct Hret as (scripts & _ & _ & Hself & Hinputs & _ & _).
  destruct (py_getitem_selected _ _ Hi) as (s & Hnth & Hget).
  pose proof Hnth as Hk. rewrite Hself in Hk.
  destruct (laid_out_nth _ _ _ _ _ Hk) as (s0 & Hs0 & Hc & _ & Ha & He).
  assert (Hcount : ctrl_count is_img2img s0 = ctrl_count is_img2img s)
    by (unfold ctrl_count; now rewrite Hc).
  rewrite Hcount in He.
  exists s. eexists. split; [assumption|]. split; [exact Ha|].
  rewrite (select_at json_dumps w' (length inputs) i s _ _ Hi Hget Ha He).
  destruct (m_ui_restraints (meths_of (cls s))) as [r|x]; [|reflexivity].
  eexists. split; [reflexivity|]. rewrite length_map, length_seq.
  assert (Hlen : length inputs = S (length (flat_map (controls_of is_img2img) scripts) + 1)).
  { rewrite Hinputs. cbn [length]. now rewrite length_app. }
  split; [lia|]. intros j Hj.
  eexists. split.
  - rewrite nth_error_map, nth_error_seq.
    replace (j <? length inputs - 1)%nat with true by (symmetry; apply Nat.ltb_lt; lia).
    reflexivity.
  - cbn [Nat.add]. rewrite orb_true_iff, andb_true_iff, Nat.eqb_eq, Nat.leb_le, Nat.ltb_lt.
    lia.
Qed.

Lemma select_script_on_session_witness :
  exists s a,
    nth_error (self_scripts Fixtures.mixed_session) (Z.to_nat (2 - 1)) = Some s
    /\ args_from s = Some a
    /\ match m_ui_restraints (meths_of (cls s)) with
       | Raise x =>
           select_script Samples.toy_json (length Fixtures.mixed_inputs) 2
                         Fixtures.mixed_session
           = (Raise x, Fixtures.mixed_session)
       | Ret r =>
           exists us,
             select_script Samples.toy_json (length Fixtures.mixed_inputs) 2
                           Fixtures.mixed_session
             = (Ret (us ++ [TextboxUpdate (Samples.toy_json r) false]),
                Fixtures.mixed_session)
             /\ length us + 1 = length Fixtures.mixed_inputs
             /\ forall j, j < length us ->
                  exists v, nth_error us j = Some (GrShow v)
                            /\ (v = true <-> j = 0 \/ a <= j < a + ctrl_count false s)
       end.
Proof.
  apply (select_script_on_session Samples.toy_json false Fixtures.mixed_registry
           Fixtures.mixed_session Fixtures.mixed_inputs 2%Z).
  - reflexivity.
  - simpl. lia.
Defined.

(** The rule of the sample session raises for the script whose
    [ui_restraints] raises. *)
Example select_broken_restraints :
  select_script Samples.toy_json (length Fixtures.mixed_inputs) 2 Fixtures.mixed_session
  = (Raise (RuntimeError "restraints"), Fixtures.mixed_session).
Proof. reflexivity. Qed.

(** A negative selector above minus the number of retained scripts does
    not fail: the index [script_index-1] counts from the end of
    [self.scripts], so selector [i] runs the script at position
    [N + i - 1] (from 0), with its slice, and clears the counter when
    the script returns. *)
Theorem run_negative_selector_wraps
    (w : world) (p : StableDiffusionProcessing) (i : Z) (rest : list pyval) :
  (- Z.of_nat (length (self_scripts w)) < i < 0)%Z ->
  exists s,
    nth_error (self_scripts w)
              (Z.to_nat (Z.of_nat (length (self_scripts w)) + i - 1)) = Some s
    /\ run p (PyInt i :: rest) w
       = (m_run (meths_of (cls s)) p
            (py_slice (PyInt i :: rest) (args_from s) (args_to s)),
          set_events
            (fun l =>
               l ++ RunCalled s p (py_slice (PyInt i :: rest) (args_from s) (args_to s))
                    :: match m_run (meths_of (cls s)) p
                               (py_slice (PyInt i :: rest) (args_from s) (args_to s)) with
                       | Ret _ => [TqdmClear]
                       | Raise _ => []
                       end)
            w).
Proof.
  intros Hi. destruct (py_getitem_wraps _ _ Hi) as (s & Hnth & Hget).
  exists s. split; [assumption|]. apply run_at; [lia | assumption].
Qed.

Lemma run_negative_selector_wraps_witness :
  exists s,
    nth_error (self_scripts Samples.demo_session)
              (Z.to_nat (Z.of_nat (length (self_scripts Samples.demo_session)) + -3 - 1))
    = Some s
    /\ run Samples.p0 (PyInt (-3) :: Samples.control_values) Samples.demo_session
       = (m_run (meths_of (cls s)) Samples.p0
            (py_slice (PyInt (-3) :: Samples.control_values) (args_from s) (args_to s)),
          set_events
            (fun l =>
               l ++ RunCalled s Samples.p0
                      (py_slice (PyInt (-3) :: Samples.control_values)
                                (args_from s) (args_to s))
                    :: match m_run (meths_of (cls s)) Samples.p0
                               (py_slice (PyInt (-3) :: Samples.control_values)
                                         (args_from s) (args_to s)) with
                       | Ret _ => [TqdmClear]
                       | Raise _ => []
                       end)
            Samples.demo_session).
Proof.
  apply (run_negative_selector_wraps Samples.demo_session Samples.p0 (-3)%Z
           Samples.control_values).
  simpl. lia.
Defined.

Lemma py_getitem_raises {A} (l : list A) (k : Z) (x : exn) :
  py_getitem l k = Raise x -> x = IndexError.
Proof.
  unfold py_getitem. destruct ((0 <=? _) && _)%Z.
  - destruct (nth_error l _); intros H; now inversion H.
  - intros H. now inversion H.
Qed.

Lemma py_sub_one_raises (v : pyval) (x : exn) :
  py_sub_one v = Raise x -> x = TypeError.
Proof. destruct v; simpl; intros H; now inversion H. Qed.

(** [run] on a vector with a selector, step by step. *)
Lemma run_cases (p : StableDiffusionProcessing) (v : pyval) (rest : list pyval)
    (w : world) :
  run p (v :: rest) w
  = if py_eq_zero v then (Ret None, w)
    else match py_sub_one v with
         | Raise x => (Raise x, w)
         | Ret k =>
             match py_getitem (self_scripts w) k with
             | Raise x => (Raise x, w)
             | Ret s =>
                 (m_run (meths_of (cls s)) p
                    (py_slice (v :: rest) (args_from s) (args_to s)),
                  set_events
                    (fun l =>
                       l ++ RunCalled s p (py_slice (v :: rest) (args_from s) (args_to s))
                            :: match m_run (meths_of (cls s)) p
                                       (py_slice (v :: rest) (args_from s) (args_to s)) with
                               | Ret _ => [TqdmClear]
                               | Raise _ => []
                               end)
                    w)
             end
         end.
Proof.
  unfold run, bind, lift. rewrite py_getitem_head.
  destruct (py_eq_zero v); [reflexivity|].
  destruct (py_sub_one v) as [k|x]; [|reflexivity].
  unfold get_self_scripts.
  destruct (py_getitem (self_scripts w) k) as [s|x]; [|reflexivity].
  unfold call_run, tqdm_clear.
  destruct (m_run (meths_of (cls s)) p _) as [processed|e].
  - unfold ret, set_events. cbn. now rewrite <- app_assoc.
  - reflexivity.
Qed.

(** What [run] can do, whatever it is given.  It writes nothing but
    events.  Either it adds no event, and then it returned [None] or
    raised [IndexError] or [TypeError] itself; or it called the [run]
    of one script, one of [self.scripts], once, with a slice of the
    argument vector, and then it returns what the script returned or
    raises what the script raised, and the progress counter is cleared
    once after a return and not at all after a raise.  Without a
    selector (an empty vector) it raises [IndexError], and with [None]
    or a string as selector it raises [TypeError]. *)
Theorem run_effects (p : StableDiffusionProcessing) (args : list pyval) (w : world) :
  let r := fst (run p args w) in
  let w' := snd (run p args w) in
  scripts_data w' = scripts_data w
  /\ self_scripts w' = self_scripts w
  /\ stderr w' = stderr w
  /\ ((events w' = events w
       /\ (r = Ret None \/ r = Raise IndexError \/ r = Raise TypeError))
      \/ exists s,
           In s (self_scripts w)
           /\ r = m_run (meths_of (cls s)) p (py_slice args (args_from s) (args_to s))
           /\ events w'
              = events w
                ++ RunCalled s p (py_slice args (args_from s) (args_to s))
                   :: match r with Ret _ => [TqdmClear] | Raise _ => [] end)
  /\ match args with
     | [] => r = Raise IndexError
     | PyNone :: _ => r = Raise TypeError
     | PyStr _ :: _ => r = Raise TypeError
     | _ => True
     end.
Proof.
  cbv zeta. destruct args as [|v rest].
  - cbn. repeat split. left. split; [reflexivity | right; left; reflexivity].
  - rewrite run_cases.
    destruct (py_eq_zero v) eqn:Hzero.
    + cbn [fst snd]. repeat split.
      * left. split; [reflexivity | left; reflexivity].
      * destruct v; try exact I; discriminate.
    + destruct (py_sub_one v) as [k|x] eqn:Hsub.
      * destruct (py_getitem (self_scripts w) k) as [s|x] eqn:Hget; cbn [fst snd].
        -- repeat split.
           ++ right. exists s. split; [eapply py_getitem_in; eassumption|].
              split; reflexivity.
           ++ destruct v; try exact I; discriminate.
        -- apply py_getitem_raises in Hget. subst x. repeat split.
           ++ left. split; [reflexivity | right; left; reflexivity].
           ++ destruct v; try exact I; discriminate.
      * apply py_sub_one_raises in Hsub. subst x. cbn [fst snd]. repeat split.
        -- left. split; [reflexivity | right; right; reflexivity].
        -- destruct v; try exact I; reflexivity.
Qed.

(** The dispatch of the sample session to a script whose [run] raises:
    the exception leaves [run] and the counter is not cleared. *)
Example run_raising_script :
  run Samples.p0 (PyInt 2 :: Fixtures.mixed_values) Fixtures.mixed_session
  = (Raise (RuntimeError "run"),
     set_events
       (fun l => l ++ [RunCalled (mkScript Fixtures.BrokenRestraints "scripts/matrix.py"
                                    (Some 3) (Some 4))
                         Samples.p0 [PyInt 3]])
       Fixtures.mixed_session).
Proof. reflexivity. Qed.

(** ** A session from build to dispatch *)

(** On a session [setup_ui] has built, with one value per element of
    [inputs]: a selector between 1 and the number of retained scripts
    hands the selected script as many values as its [ui] declared
    controls, the values at the positions of its own controls in their
    order; neither the selector in front nor the restraints text at the
    end is among them. *)
Theorem run_on_session (is_img2img : bool) (w w' w2 : world)
    (inputs : list component) (p : StableDiffusionProcessing)
    (i : Z) (rest : list pyval) :
  setup_ui is_img2img w = (Ret inputs, w') ->
  self_scripts w2 = self_scripts w' ->
  length (PyInt i :: rest) = length inputs ->
  (1 <= i <= Z.of_nat (length (self_scripts w')))%Z ->
  exists s a,
    nth_error (self_scripts w') (Z.to_nat (i - 1)) = Some s
    /\ args_from s = Some a
    /\ 1 <= a /\ a + ctrl_count is_img2img s <= length inputs - 1
    /\ length (py_slice (PyInt i :: rest) (args_from s) (args_to s))
       = ctrl_count is_img2img s
    /\ (forall j, j < ctrl_count is_img2img s ->
          nth_error (py_slice (PyInt i :: rest) (args_from s) (args_to s)) j
          = nth_error (PyInt i :: rest) (a + j))
    /\ events (snd (run p (PyInt i :: rest) w2))
       = events w2
         ++ RunCalled s p (py_slice (PyInt i :: rest) (args_from s) (args_to s))
            :: match fst (run p (PyInt i :: rest) w2) with
               | Ret _ => [TqdmClear]
               | Raise _ => []
               end.
Proof.
  intros Hbuild Hsame Hlen Hi. pose proof Hbuild as Hret. apply setup_ui_returns in Hret.
  destruct Hret as (scripts & _ & _ & Hself & Hinputs & _ & _).
  destruct (py_getitem_selected _ _ Hi) as (s & Hnth & Hget).
  pose proof Hnth as Hk. rewrite Hself in Hk.
  destruct (laid_out_nth _ _ _ _ _ Hk) as (s0 & Hs0 & Hc & _ & Ha & He).
  assert (Hcount : ctrl_count is_img2img s0 = ctrl_count is_img2img s)
    by (unfold ctrl_count; now rewrite Hc).
  rewrite Hcount in He.
  pose proof (sum_through is_img2img _ _ _ Hs0) as Hsum. rewrite Hcount in Hsum.
  assert (Hlen' : length inputs - 1
                  = 1 + list_sum (map (ctrl_count is_img2img) scripts)).
  { rewrite Hinputs. cbn [length]. rewrite length_app, controls_length. simpl. lia. }
  exists s. eexists. split; [assumption|]. split; [exact Ha|].
  split; [lia|]. split; [lia|].
  rewrite Ha, He.
  match goal with
  | |- context [py_slice ?l (Some ?x) (Some ?y)] =>
      destruct (py_slice_within l x y) as [Hl Hn]; [rewrite Hlen; lia|]
  end.
  split; [rewrite Hl; lia|]. split.
  - intros j Hj. apply Hn. lia.
  - rewrite <- Hsame in Hget. rewrite (run_at w2 p i rest s) by (lia || assumption).
    cbn [fst snd set_events events]. now rewrite Ha, He.
Qed.

Lemma run_on_session_witness :
  exists s a,
    nth_error (self_scripts Samples.demo_session) (Z.to_nat (3 - 1)) = Some s
    /\ args_from s = Some a
    /\ 1 <= a /\ a + ctrl_count true s <= length Samples.demo_inputs - 1
    /\ length (py_slice (PyInt 3 :: Samples.control_values) (args_from s) (args_to s))
       = ctrl_count true s
    /\ (forall j, j < ctrl_count true s ->
          nth_error (py_slice (PyInt 3 :: Samples.control_values)
                              (args_from s) (args_to s)) j
          = nth_error (PyInt 3 :: Samples.control_values) (a + j))
    /\ events (snd (run Samples.p0 (PyInt 3 :: Samples.control_values)
                        Samples.demo_session))
       = events Samples.demo_session
         ++ RunCalled s Samples.p0
              (py_slice (PyInt 3 :: Samples.control_values) (args_from s) (args_to s))
            :: match fst (run Samples.p0 (PyInt 3 :: Samples.control_values)
                              Samples.demo_session) with
               | Ret _ => [TqdmClear]
               | Raise _ => []
               end.
Proof.
  apply (run_on_session true Samples.demo_registry Samples.demo_session
           Samples.demo_session Samples.demo_inputs Samples.p0 3%Z
           Samples.control_values).
  - reflexivity.
  - reflexivity.
  - reflexivity.
  - simpl. lia.
Defined.

Lemma laid_out_title_lines (b : bool) (start : nat) (l : list script) :
  flat_map title_lines (laid_out b start l) = flat_map title_lines l.
Proof. revert start. induction l; intros; simpl; [reflexivity | now rewrite IHl]. Qed.

Lemma laid_out_ui_lines (b : bool) (start : nat) (l : list script) :
  flat_map (ui_lines b) (laid_out b start l) = flat_map (ui_lines b) l.
Proof. revert start. induction l; intros; simpl; [reflexivity | now rewrite IHl]. Qed.

(** What a build that returns writes to stderr: for every retained
    script whose [title] raised, a line that names its file and "title"
    and a line with the trace, in the order of the scripts; after all
    of these, the same two lines with "ui" for every script whose [ui]
    raised.  When no [title] and no [ui] of a retained script raises,
    stderr is left as it was. *)
Theorem setup_ui_log (is_img2img : bool) (w w' : world) (inputs : list component) :
  setup_ui is_img2img w = (Ret inputs, w') ->
  stderr w'
  = stderr w ++ flat_map title_lines (self_scripts w')
             ++ flat_map (ui_lines is_img2img) (self_scripts w')
  /\ ((forall s, In s (self_scripts w') ->
          (exists t, m_title (meths_of (cls s)) = Ret t)
          /\ exists c, m_ui (meths_of (cls s)) is_img2img = Ret c) ->
      stderr w' = stderr w).
Proof.
  intros Hbuild.
  destruct (setup_ui_returns_calls _ _ _ _ Hbuild) as (_ & _ & Hlog).
  apply setup_ui_returns in Hbuild.
  destruct Hbuild as (scripts & _ & Hscripts & Hself & _ & _ & _).
  rewrite <- Hscripts in Hlog. rewrite Hlog, Hself.
  rewrite laid_out_title_lines, laid_out_ui_lines. split; [reflexivity|].
  intros Hquiet.
  assert (Hnone : forall l, (forall s, In s l ->
                     (exists t, m_title (meths_of (cls s)) = Ret t)
                     /\ exists c, m_ui (meths_of (cls s)) is_img2img = Ret c) ->
                   flat_map title_lines l = [] /\ flat_map (ui_lines is_img2img) l = []).
  { induction l as [|s l IH]; intros H; simpl; [now split|].
    destruct (H s (or_introl eq_refl)) as ((t & Ht) & (c & Hc)).
    destruct IH as [IH1 IH2]; [intros s' Hs'; apply H; now right|].
    unfold title_lines at 1, ui_lines at 1. rewrite Ht, Hc, IH1, IH2. now split. }
  rewrite <- (laid_out_title_lines is_img2img 1), <- (laid_out_ui_lines is_img2img 1).
  destruct (Hnone _ Hquiet) as [-> ->]. now rewrite app_nil_r.
Qed.

Lemma setup_ui_log_witness :
  stderr Samples.demo_session
  = stderr Samples.demo_registry
    ++ flat_map title_lines (self_scripts Samples.demo_session)
    ++ flat_map (ui_lines true) (self_scripts Samples.demo_session)
  /\ ((forall s, In s (self_scripts Samples.demo_session) ->
          (exists t, m_title (meths_of (cls s)) = Ret t)
          /\ exists c, m_ui (meths_of (cls s)) true = Ret c) ->
      stderr Samples.demo_session = stderr Samples.demo_registry).
Proof.
  apply (setup_ui_log true Samples.demo_registry Samples.demo_session
           Samples.demo_inputs).
  reflexivity.
Defined.

(** The stderr of the sample build: the base class has no title, and the
    [ui] of one script raises. *)
Example setup_ui_log_sample :
  stderr Samples.demo_session
  = ["Error calling: scripts/base.py/title";
     "Traceback (most recent call last): NotImplementedError";
     "Error calling: scripts/matrix.py/ui";
     "Traceback (most recent call last): RuntimeError: ui"].
Proof. reflexivity. Qed.

(** A retained script whose class overrides nothing of [Script]: it is
    listed under the fallback label, it has no slot, selecting it shows
    the dropdown only and puts the JSON text of the empty dict in the
    textbox, and dispatching to it raises [NotImplementedError] from
    the [run] of [Script], called without arguments; the progress
    counter is not cleared. *)
Theorem inherited_defaults_session (is_img2img : bool) (w w' : world)
    (inputs : list component) (k : nat) (s : script) :
  setup_ui is_img2img w = (Ret inputs, w') ->
  nth_error (self_scripts w') k = Some s ->
  meths_of (cls s) = Script_methods ->
  (exists titles rest,
      inputs = selector_dropdown is_img2img titles :: rest
      /\ nth_error titles k = Some (filename s ++ " [error]")%string)
  /\ args_from s = args_to s
  /\ (forall json_dumps n_inputs,
         select_script json_dumps n_inputs (Z.of_nat (S k)) w'
         = (Ret (map (fun j => gr_show (j =? 0)%nat) (seq 0 (n_inputs - 1))
                 ++ [TextboxUpdate (json_dumps []) false]),
            w'))
  /\ forall p rest,
       run p (PyInt (Z.of_nat (S k)) :: rest) w'
       = (Raise NotImplementedError, set_events (fun l => l ++ [RunCalled s p []]) w').
Proof.
  intros Hbuild Hk Hdef. pose proof Hbuild as Hret. apply setup_ui_returns in Hret.
  destruct Hret as (scripts & _ & _ & Hself & Hinputs & _ & _).
  pose proof Hk as Hk0. rewrite Hself in Hk0.
  destruct (laid_out_nth _ _ _ _ _ Hk0) as (s0 & Hs0 & Hc & Hf & Ha & He).
  assert (Hzero : ctrl_count is_img2img s0 = 0)
    by (unfold ctrl_count; now rewrite <- Hc, Hdef).
  rewrite Hzero, Nat.add_0_r in He.
  assert (Hi : (1 <= Z.of_nat (S k) <= Z.of_nat (length (self_scripts w')))%Z).
  { assert (k < length (self_scripts w')) by (apply nth_error_Some; congruence). lia. }
  destruct (py_getitem_selected _ _ Hi) as (s1 & Hnth & Hget).
  replace (Z.to_nat (Z.of_nat (S k) - 1)) with k in Hnth by lia.
  rewrite Hk in Hnth. inversion Hnth; subst s1. clear Hnth.
  split; [|split; [|split]].
  - exists (map display_title scripts). eexists. split; [exact Hinputs|].
    rewrite nth_error_map, Hs0. cbn [option_map]. f_equal.
    unfold display_title, fallback_title. now rewrite <- Hc, Hdef, Hf.
  - now rewrite Ha, He.
  - intros json_dumps n_inputs.
    rewrite (select_at json_dumps w' n_inputs _ s _ _ Hi Hget Ha He), Hdef.
    cbn [m_ui_restraints Script_methods]. do 3 f_equal. apply map_ext. intros j.
    destruct (Nat.leb_spec (1 + list_sum (map (ctrl_count is_img2img) (firstn k scripts))) j);
      destruct (Nat.ltb_spec j (1 + list_sum (map (ctrl_count is_img2img) (firstn k scripts))));
      try lia; now rewrite ?orb_false_r.
  - intros p rest. rewrite (run_at w' p _ rest s) by (lia || assumption).
    rewrite Ha, He, Hdef. cbn [m_run Script_methods].
    replace (py_slice (PyInt (Z.of_nat (S k)) :: rest) _ _) with (@nil pyval);
      [reflexivity|].
    unfold py_slice. now rewrite Nat.sub_diag.
Qed.

Lemma inherited_defaults_session_witness :
  (exists titles rest,
      Fixtures.mixed_inputs = selector_dropdown false titles :: rest
      /\ nth_error titles 2
         = Some (filename (mkScript Fixtures.Plain "scripts/plain.py" (Some 4) (Some 4))
                 ++ " [error]")%string)
  /\ args_from (mkScript Fixtures.Plain "scripts/plain.py" (Some 4) (Some 4))
     = args_to (mkScript Fixtures.Plain "scripts/plain.py" (Some 4) (Some 4))
  /\ (forall json_dumps n_inputs,
         select_script json_dumps n_inputs (Z.of_nat 3) Fixtures.mixed_session
         = (Ret (map (fun j => gr_show (j =? 0)%nat) (seq 0 (n_inputs - 1))
                 ++ [TextboxUpdate (json_dumps []) false]),
            Fixtures.mixed_session))
  /\ forall p rest,
       run p (PyInt (Z.of_nat 3) :: rest) Fixtures.mixed_session
       = (Raise NotImplementedError,
          set_events
            (fun l => l ++ [RunCalled (mkScript Fixtures.Plain "scripts/plain.py"
                                         (Some 4) (Some 4)) p []])
            Fixtures.mixed_session).
Proof.
  apply (inherited_defaults_session false Fixtures.mixed_registry Fixtures.mixed_session
           Fixtures.mixed_inputs 2
           (mkScript Fixtures.Plain "scripts/plain.py" (Some 4) (Some 4)));
    reflexivity.
Defined.

(** ** File names *)

Lemma append_snoc (acc : string) (c : ascii) (r : string) :
  ((acc ++ String c EmptyString) ++ r)%string = (acc ++ String c r)%string.
Proof. induction acc as [|x acc IH]; simpl; [reflexivity | now rewrite IH]. Qed.

Lemma basename_from_plain (y acc : string) :
  no_slash y = true -> basename_from acc y = (acc ++ y)%string.
Proof.
  revert acc. induction y as [|c r IH]; intros acc H; simpl in *.
  - induction acc as [|x acc IHacc]; simpl; [reflexivity | now rewrite <- IHacc].
  - apply andb_true_iff in H. destruct H as [Hc Hr].
    apply negb_true_iff in Hc. rewrite Hc, (IH _ Hr). apply append_snoc.
Qed.

Lemma basename_from_slash (x acc y : string) :
  basename_from acc (x ++ String "/" y)%string = basename_from EmptyString y.
Proof.
  revert acc. induction x as [|c x IH]; intros acc; simpl.
  - reflexivity.
  - destruct (Ascii.eqb c "/"); apply IH.
Qed.

Lemma ends_with_slash_split (a : string) :
  ends_with_slash a = true -> exists a', a = (a' ++ "/")%string.
Proof.
  unfold ends_with_slash. induction a as [|c a IH]; simpl.
  - discriminate.
  - rewrite Nat.sub_0_r. destruct a as [|c' a'].
    + simpl. intros H. apply Ascii.eqb_eq in H. subst c. now exists EmptyString.
    + simpl in *. rewrite Nat.sub_0_r in IH. intros H.
      destruct (IH H) as (x & Hx). exists (String c x). simpl. now rewrite Hx.
Qed.

Lemma prefix_slash_plain (b : string) :
  no_slash b = true -> String.prefix "/" b = false.
Proof.
  destruct b as [|c r]; [reflexivity|].
  intros H. simpl in H. apply andb_true_iff in H. destruct H as [Hc _].
  apply negb_true_iff, Ascii.eqb_neq in Hc. cbn -[ascii_dec].
  destruct (ascii_dec "/" c) as [Heq|]; [|reflexivity]. now subst c.
Qed.

(** The tag [setup_ui] puts on a control is the name of the file its
    script was loaded from: [load_scripts] stores the path
    [os.path.join(basedir, filename)], and the base name of that path
    is the file name again, for every name [os.listdir] can give (one
    without a slash) and every [basedir], with or without a trailing
    slash. *)
Theorem control_tag_is_file_name (basedir fname : string) (c : pyclass)
    (a e : option nat) (control : component) :
  no_slash fname = true ->
  os_path_basename (os_path_join basedir fname) = fname
  /\ custom_script_source
       (tag_control (mkScript c (os_path_join basedir fname) a e) control)
     = Some fname.
Proof.
  intros Hplain.
  assert (Hbase : os_path_basename (os_path_join basedir fname) = fname).
  { unfold os_path_basename, os_path_join. rewrite (prefix_slash_plain _ Hplain).
    destruct (String.eqb basedir EmptyString) eqn:Hempty; simpl.
    - apply String.eqb_eq in Hempty. subst basedir. simpl.
      now rewrite (basename_from_plain _ _ Hplain).
    - destruct (ends_with_slash basedir) eqn:Hslash.
      + destruct (ends_with_slash_split _ Hslash) as (x & ->).
        replace ((x ++ "/") ++ fname)%string with (x ++ String "/" fname)%string
          by (symmetry; apply append_snoc).
        now rewrite basename_from_slash, (basename_from_plain _ _ Hplain).
      + now rewrite basename_from_slash, (basename_from_plain _ _ Hplain). }
  split; [exact Hbase|]. unfold tag_control. cbn [custom_script_source filename].
  now rewrite Hbase.
Qed.

Lemma control_tag_is_file_name_witness :
  os_path_basename (os_path_join "extensions/scripts/" "upscale.py") = "upscale.py"
  /\ custom_script_source
       (tag_control (mkScript Samples.Upscale
                       (os_path_join "extensions/scripts/" "upscale.py") None None)
                    (Samples.slider "scale"))
     = Some "upscale.py".
Proof.
  apply (control_tag_is_file_name "extensions/scripts/" "upscale.py" Samples.Upscale
           None None (Samples.slider "scale")).
  reflexivity.
Defined.

(** ** Edges of a session *)

Lemma laid_out_app (b : bool) (l1 l2 : list script) (start : nat) :
  laid_out b start (l1 ++ l2)
  = laid_out b start l1
    ++ laid_out b (start + list_sum (map (ctrl_count b) l1)) l2.
Proof.
  revert start. induction l1 as [|s l1 IH]; intros start; simpl.
  - now rewrite Nat.add_0_r.
  - rewrite IH. do 3 f_equal. lia.
Qed.

Lemma laid_out_again (b : bool) (l : list script) (start start' : nat) :
  laid_out b start (laid_out b start' l) = laid_out b start l.
Proof.
  revert start start'. induction l as [|s l IH]; intros start start'; simpl.
  - reflexivity.
  - unfold ctrl_count at 1 2. cbn [cls]. fold (ctrl_count b s). now rewrite IH.
Qed.

(** [setup_ui] does not start from an empty [self.scripts]: called again
    on the runner of a session it has built, over the same registry, it
    returns again, keeps the instances of the first call with the
    ranges they had, and appends a second instance of every retained
    script behind them; the list it returns has the controls of every
    script twice. *)
Theorem setup_ui_twice_doubles (is_img2img : bool) (w w' : world)
    (inputs : list component) :
  self_scripts w = [] ->
  setup_ui is_img2img w = (Ret inputs, w') ->
  exists inputs2 w2 again,
    setup_ui is_img2img w' = (Ret inputs2, w2)
    /\ self_scripts w2 = self_scripts w' ++ again
    /\ map origin again = map origin (self_scripts w')
    /\ length inputs2 = 2 * length inputs - 2.
Proof.
  intros Hfresh Hbuild.
  destruct (setup_ui_returns_calls _ _ _ _ Hbuild) as (Htitle & Hui & _).
  apply setup_ui_returns in Hbuild.
  destruct Hbuild as (scripts & Hscan & Hscripts & Hself & Hinputs & Hdata & _).
  rewrite Hfresh in Hscripts, Htitle, Hui. cbn [app] in Hscripts, Htitle, Hui.
  rewrite <- Hscripts in Htitle, Hui.
  assert (Hscan' : snd (scan is_img2img (scripts_data w')) = None) by now rewrite Hdata.
  assert (Htitle' : first_stop title_escape
                      (self_scripts w' ++ fst (scan is_img2img (scripts_data w'))) = None).
  { rewrite Hself, Hdata, <- Hscripts. apply first_stop_none, Forall_app. split.
    - apply Forall_forall. intros s Hs. apply In_nth_error in Hs. destruct Hs as (k & Hk).
      destruct (laid_out_nth _ _ _ _ _ Hk) as (s0 & Hs0 & Hc & _).
      unfold title_escape. rewrite Hc. apply nth_error_In in Hs0.
      apply first_stop_none in Htitle. rewrite Forall_forall in Htitle.
      apply (Htitle s0 Hs0).
    - now apply first_stop_none. }
  assert (Hui' : first_stop (ui_escape is_img2img)
                   (self_scripts w' ++ fst (scan is_img2img (scripts_data w'))) = None).
  { rewrite Hself, Hdata, <- Hscripts. apply first_stop_none, Forall_app. split.
    - apply Forall_forall. intros s Hs. apply In_nth_error in Hs. destruct Hs as (k & Hk).
      destruct (laid_out_nth _ _ _ _ _ Hk) as (s0 & Hs0 & Hc & _).
      unfold ui_escape. rewrite Hc. apply nth_error_In in Hs0.
      apply first_stop_none in Hui. rewrite Forall_forall in Hui.
      apply (Hui s0 Hs0).
    - now apply first_stop_none. }
  rewrite (setup_ui_effect is_img2img w' Hscan' Htitle' Hui'), Hdata. cbv zeta.
  do 3 eexists. split; [reflexivity|]. cbn [self_scripts].
  rewrite Hself, <- Hscripts, laid_out_app, laid_out_again.
  split; [reflexivity|]. split; [now rewrite !laid_out_origin|].
  rewrite Hinputs. cbn [length].
  rewrite !length_app, flat_map_app, length_app, !controls_length, laid_out_ctrl_count.
  simpl. lia.
Qed.

Lemma setup_ui_twice_doubles_witness :
  exists inputs2 w2 again,
    setup_ui true Samples.demo_session = (Ret inputs2, w2)
    /\ self_scripts w2 = self_scripts Samples.demo_session ++ again
    /\ map origin again = map origin (self_scripts Samples.demo_session)
    /\ length inputs2 = 2 * length Samples.demo_inputs - 2.
Proof.
  apply (setup_ui_twice_doubles true Samples.demo_registry Samples.demo_session
           Samples.demo_inputs); reflexivity.
Defined.

(** A session without scripts: on an empty registry and a new runner,
    [setup_ui] returns the dropdown with the single choice "None" and
    the restraints textbox, and writes nothing.  In that session every
    integer selector but 0 makes [run] raise [IndexError]. *)
Theorem session_without_scripts (is_img2img : bool) (w : world) :
  scripts_data w = [] ->
  self_scripts w = [] ->
  setup_ui is_img2img w
  = (Ret [selector_dropdown is_img2img []; restraints_box is_img2img], w)
  /\ forall p i rest,
       i <> 0%Z -> run p (PyInt i :: rest) w = (Raise IndexError, w).
Proof.
  intros Hdata Hself. split.
  - rewrite setup_ui_effect; rewrite ?Hdata, ?Hself; try reflexivity.
    cbn. rewrite app_nil_r. destruct w; simpl in *. now subst.
  - intros p i rest Hnz. rewrite run_cases. cbn [py_eq_zero py_sub_one].
    replace (i =? 0)%Z with false by (symmetry; now apply Z.eqb_neq).
    rewrite py_getitem_beyond; [reflexivity | assumption | rewrite Hself; simpl; lia].
Qed.

Lemma session_without_scripts_witness :
  setup_ui false Samples.empty_world
  = (Ret [selector_dropdown false []; restraints_box false], Samples.empty_world)
  /\ forall p i rest,
       i <> 0%Z ->
       run p (PyInt i :: rest) Samples.empty_world = (Raise IndexError, Samples.empty_world).
Proof.
  apply (session_without_scripts false Samples.empty_world); reflexivity.
Defined.

(** An instance whose range was never assigned, as [setup_ui] leaves it
    when it is stopped by an exception: [args_from] and [args_to] are
    [None], so dispatching to it hands its [run] the whole argument
    vector, selector included, and selecting it in a page with a
    script control raises [TypeError] from the comparison with
    [None]. *)
Theorem unassigned_range (json_dumps : restraints -> string) (w : world)
    (p : StableDiffusionProcessing) (i : Z) (rest : list pyval) (n_inputs : nat) :
  (1 <= i <= Z.of_nat (length (self_scripts w)))%Z ->
  (forall s, nth_error (self_scripts w) (Z.to_nat (i - 1)) = Some s ->
             args_from s = None /\ args_to s = None) ->
  3 <= n_inputs ->
  exists s,
    nth_error (self_scripts w) (Z.to_nat (i - 1)) = Some s
    /\ events (snd (run p (PyInt i :: rest) w))
       = events w
         ++ RunCalled s p (PyInt i :: rest)
            :: match fst (run p (PyInt i :: rest) w) with
               | Ret _ => [TqdmClear]
               | Raise _ => []
               end
    /\ select_script json_dumps n_inputs i w = (Raise TypeError, w).
Proof.
  intros Hi Hnone Hn. destruct (py_getitem_selected _ _ Hi) as (s & Hnth & Hget).
  destruct (Hnone s Hnth) as [Ha He].
  exists s. split; [assumption|]. split.
  - rewrite (run_at w p i rest s) by (lia || assumption). cbn [fst snd set_events events].
    rewrite Ha, He. unfold py_slice. rewrite Nat.sub_0_r. cbn [skipn].
    now rewrite firstn_all.
  - unfold select_script, bind, get_self_scripts, lift.
    replace ((0 <? i) && (i <=? Z.of_nat (length (self_scripts w))))%Z with true
      by (symmetry; apply andb_true_iff; split; [apply Z.ltb_lt | apply Z.leb_le]; lia).
    rewrite Hget. unfold ret. rewrite Ha, He.
    destruct n_inputs as [|[|[|n]]]; try lia. reflexivity.
Qed.

Lemma unassigned_range_witness :
  exists s,
    nth_error (self_scripts (snd (setup_ui false Fixtures.late_failure_registry)))
              (Z.to_nat (1 - 1)) = Some s
    /\ events (snd (run Samples.p0 (PyInt 1 :: Samples.control_values)
                        (snd (setup_ui false Fixtures.late_failure_registry))))
       = events (snd (setup_ui false Fixtures.late_failure_registry))
         ++ RunCalled s Samples.p0 (PyInt 1 :: Samples.control_values)
            :: match fst (run Samples.p0 (PyInt 1 :: Samples.control_values)
                              (snd (setup_ui false Fixtures.late_failure_registry))) with
               | Ret _ => [TqdmClear]
               | Raise _ => []
               end
    /\ select_script Samples.toy_json 5 1
                     (snd (setup_ui false Fixtures.late_failure_registry))
       = (Raise TypeError, snd (setup_ui false Fixtures.late_failure_registry)).
Proof.
  apply (unassigned_range Samples.toy_json
           (snd (setup_ui false Fixtures.late_failure_registry))
           Samples.p0 1%Z Samples.control_values 5).
  - simpl. lia.
  - intros s Hs. simpl in Hs. inversion Hs. split; reflexivity.
  - lia.
Defined.
